(** * The normalization engine of the Nobel Prize API notebook

    A shallow embedding of [extract_nested_value] and
    [normalize_to_dataframe] (nobel-prize-api-data-engineering.py), and the
    properties of the two functions.

    The file has two models of the same code.

    - [Module Py]: decoded JSON as a tree of values, the two functions as
      functions into a result type that records the Python exception a
      call ends with.
    - [Module Store]: the same two functions over a store of mutable
      objects (dicts and lists held by reference), with the allocations
      and in-place updates of the source ([rows.append], [row.copy],
      [new_row.update]) written out.

    [normalize_to_dataframe_sim] relates the two: on a reference that
    stands for a tree, the store model ends as the tree model does. *)

From Stdlib Require Import String Ascii ZArith List Bool.
From stdpp Require Import base option list gmap.
Import ListNotations.

Local Open Scope string_scope.
Local Open Scope list_scope.
Set Warnings "-register-all".

(** ** Python values and exceptions *)

(** A Python float, as far as this program can tell them apart: it never
    computes with one, it only stores [np.nan]. *)
Inductive pyfloat : Type :=
| NaN
| Inf (negative : bool)
| Finite (mantissa exponent : Z).

(** What [json.loads] produces, plus the floats. A dict keeps its
    insertion order, which iteration observes, so it is a list of
    key/value pairs read with [dict_get] (first match). The keys of a
    Python dict are distinct; nothing below needs that. *)
Inductive value : Type :=
| VNone
| VBool (b : bool)
| VInt (z : Z)
| VFloat (f : pyfloat)
| VStr (s : string)
| VList (l : list value)
| VDict (d : list (string * value)).

Abbreviation pydict := (list (string * value)).

(** The exceptions the two functions can end with. *)
Inductive exn : Type :=
| TypeError
| AttributeError
| KeyError.

Inductive result (A : Type) : Type :=
| Ok (a : A)
| Raise (e : exn).
Arguments Ok {A} a.
Arguments Raise {A} e.

Global Instance result_ret : MRet result := @Ok.
Global Instance result_bind : MBind result := λ A B f m,
  match m with
  | Ok a => f a
  | Raise e => Raise e
  end.

Definition returns {A} (m : result A) : Prop := ∃ a, m = Ok a.

(** [np.nan], the default of [extract_nested_value] and the fill value of
    [pd.DataFrame]. *)
Definition np_nan : value := VFloat NaN.

(** ** Strings *)

(** [sub in s] on two strings. *)
Fixpoint is_substring (sub s : string) : bool :=
  String.prefix sub s ||
  match s with
  | EmptyString => false
  | String _ s' => is_substring sub s'
  end.

(** [s.split(sep)] for a one-character separator: one more piece than
    there are separators, never the empty list. *)
Fixpoint split_on (sep : ascii) (s : string) : list string :=
  match s with
  | EmptyString => [EmptyString]
  | String c s' =>
      if Ascii.eqb c sep then EmptyString :: split_on sep s'
      else match split_on sep s' with
           | piece :: pieces => String c piece :: pieces
           | [] => [String c EmptyString]
           end
  end.

(** The characters of a string, as [for c in s] yields them. *)
Fixpoint chars (s : string) : list string :=
  match s with
  | EmptyString => []
  | String c s' => String c EmptyString :: chars s'
  end.

(** ** Dicts

    Generic in the type [V] of the values held, which is [value] in the
    tree model and a scalar or a reference in the store model. *)

Section Dicts.
Context {V : Type}.

Fixpoint dict_get (k : string) (d : list (string * V)) : option V :=
  match d with
  | [] => None
  | (k', v) :: d' => if String.eqb k k' then Some v else dict_get k d'
  end.

(** [d[k] = v]: an existing key keeps its place, a new one goes last. *)
Fixpoint dict_set (k : string) (v : V) (d : list (string * V))
  : list (string * V) :=
  match d with
  | [] => [(k, v)]
  | (k', v') :: d' =>
      if String.eqb k k' then (k', v) :: d' else (k', v') :: dict_set k v d'
  end.

(** [d.update(other)]. *)
Definition dict_update (d other : list (string * V)) : list (string * V) :=
  fold_left (λ acc kv, dict_set kv.1 kv.2 acc) other d.

Definition dict_keys (d : list (string * V)) : list string := map fst d.

End Dicts.

(** ** pd.DataFrame(rows) for a list of dicts

    pandas takes the columns to be the keys of the dicts in the order in
    which they first appear, and fills the cells a dict has no key for
    with NaN. A cell here is the object the row dict holds, that is, the
    frame before pandas infers a dtype per column; the inference, which
    differs between versions of pandas, can show [None] as NaN and an
    integer beside a missing value as a float. What the properties below
    say of a frame is its columns, its number of rows and which cells are
    filled; what the rows hold is said of the row dicts. *)

Record DataFrame (V : Type) : Type := mkDataFrame {
  columns : list string;
  data : list (list V)
}.
Arguments mkDataFrame {V} columns data.
Arguments columns {V} d.
Arguments data {V} d.

Section Frames.
Context {V : Type} (nan : V).

Definition add_column (cols : list string) (k : string) : list string :=
  if bool_decide (k ∈ cols) then cols else cols ++ [k].

Definition add_columns (cols : list string) (row : list (string * V))
  : list string :=
  fold_left add_column (dict_keys row) cols.

Definition union_keys (rows : list (list (string * V))) : list string :=
  fold_left add_columns rows [].

Definition fill (row : list (string * V)) (column : string) : V :=
  default nan (dict_get column row).

Definition frame_of_records (rows : list (list (string * V))) : DataFrame V :=
  let cols := union_keys rows in
  {| columns := cols; data := map (λ row, map (fill row) cols) rows |}.

(** The rows of a frame read back as records, [df.to_dict('records')]. *)
Definition records (df : DataFrame V) : list (list (string * V)) :=
  map (λ cells, zip (columns df) cells) (data df).

End Frames.

(** ** The operations of Python the two functions use *)

Module Py.

(** [elem == key] for a string [key]. *)
Definition eq_str (key : string) (elem : value) : bool :=
  match elem with
  | VStr s => String.eqb s key
  | _ => false
  end.

(** [key in current]. *)
Definition py_in (key : string) (current : value) : result bool :=
  match current with
  | VDict d => Ok (bool_decide (is_Some (dict_get key d)))
  | VStr s => Ok (is_substring key s)
  | VList l => Ok (existsb (eq_str key) l)
  | VNone | VBool _ | VInt _ | VFloat _ => Raise TypeError
  end.

(** [current.__contains__(key)]: as [in] where the method exists. *)
Definition py_contains (current : value) (key : string) : result bool :=
  match current with
  | VDict _ | VStr _ | VList _ => py_in key current
  | VNone | VBool _ | VInt _ | VFloat _ => Raise AttributeError
  end.

(** [current[key]] for a string [key]. *)
Definition py_getitem (current : value) (key : string) : result value :=
  match current with
  | VDict d =>
      match dict_get key d with
      | Some v => Ok v
      | None => Raise KeyError
      end
  | _ => Raise TypeError
  end.

(** [current.get(key)]. *)
Definition py_get (current : value) (key : string) : result value :=
  match current with
  | VDict d => Ok (default VNone (dict_get key d))
  | _ => Raise AttributeError
  end.

(** The items of [for x in v]. *)
Definition py_iter (v : value) : result (list value) :=
  match v with
  | VList l => Ok l
  | VDict d => Ok (map VStr (dict_keys d))
  | VStr s => Ok (map VStr (chars s))
  | VNone | VBool _ | VInt _ | VFloat _ => Raise TypeError
  end.

(** A [for] loop whose body updates [rows] or raises. *)
Fixpoint for_each {A S} (items : list A) (body : A → S → result S) (s : S)
  : result S :=
  match items with
  | [] => Ok s
  | x :: items' => s' ← body x s; for_each items' body s'
  end.

(** ** extract_nested_value *)

(** The loop over [keys]. *)
Fixpoint walk (keys : list string) (current default : value) : result value :=
  match keys with
  | [] => Ok current
  | key :: keys' =>
      b ← py_in key current;
      if b : bool then
        current' ← py_getitem current key;
        walk keys' current' default
      else Ok default
  end.

Definition extract_nested_value (data : value) (path : string) (default : value)
  : result value :=
  let keys := split_on "." path in
  walk keys data default.

(** The frame with NaN as the fill value. *)
Abbreviation cell := (fill np_nan).
Abbreviation pd_DataFrame := (frame_of_records np_nan).

(** ** normalize_to_dataframe *)

(** [x.get(key) if key in x else np.nan]. *)
Definition get_or_nan (x : value) (key : string) : result value :=
  b ← py_in key x;
  if b : bool then py_get x key else Ok np_nan.

(** The dict display of the laureates branch; its entries are evaluated
    top to bottom. *)
Definition laureate_row (laureate : value) : result pydict :=
  laureate_id ← py_get laureate "id";
  known_name ← extract_nested_value laureate "knownName.en" np_nan;
  gender ← get_or_nan laureate "gender";
  birth_date ← extract_nested_value laureate "birth.date" np_nan;
  born_city ← extract_nested_value laureate "birth.place.city.en" np_nan;
  born_country ← extract_nested_value laureate "birth.place.country.en" np_nan;
  born_country_now ← extract_nested_value laureate "birth.place.countryNow.en" np_nan;
  continent ← extract_nested_value laureate "birth.place.continent.en" np_nan;
  death_date ← extract_nested_value laureate "death.date" np_nan;
  Ok [("laureate_id", laureate_id);
      ("known_name", known_name);
      ("gender", gender);
      ("birth_date", birth_date);
      ("born_city", born_city);
      ("born_country", born_country);
      ("born_country_now", born_country_now);
      ("continent", continent);
      ("death_date", death_date)].

(** The dict display of the nobelPrizes branch. *)
Definition prize_row (nobel_prize : value) : result pydict :=
  year ← get_or_nan nobel_prize "awardYear";
  category ← extract_nested_value nobel_prize "category.en" np_nan;
  date_awarded ← get_or_nan nobel_prize "dateAwarded";
  prize_amount ← get_or_nan nobel_prize "prizeAmount";
  prize_amount_adjusted ← get_or_nan nobel_prize "prizeAmountAdjusted";
  top_motivation ← extract_nested_value nobel_prize "topMotivation.en" np_nan;
  Ok [("year", year);
      ("category", category);
      ("date_awarded", date_awarded);
      ("prize_amount", prize_amount);
      ("prize_amount_adjusted", prize_amount_adjusted);
      ("top_motivation", top_motivation)].

(** The dict display passed to [new_row.update]. *)
Definition laureate_fields (nobel_prize_laureate : value) : result pydict :=
  laureate_id ← py_get nobel_prize_laureate "id";
  motivation ← extract_nested_value nobel_prize_laureate "motivation.en" np_nan;
  portion ← extract_nested_value nobel_prize_laureate "portion" np_nan;
  Ok [("laureate_id", laureate_id);
      ("motivation", motivation);
      ("portion", portion)].

(** Body of [for laureate in json_data]. *)
Definition laureate_body (laureate : value) (rows : list pydict)
  : result (list pydict) :=
  row ← laureate_row laureate;
  Ok (rows ++ [row]).

(** Body of [for nobel_prize_laureate in nobel_prize.get('laureates')]. *)
Definition prize_laureate_body (row : pydict) (nobel_prize_laureate : value)
    (rows : list pydict) : result (list pydict) :=
  let new_row := row in
  fields ← laureate_fields nobel_prize_laureate;
  let new_row := dict_update new_row fields in
  Ok (rows ++ [new_row]).

(** Body of [for nobel_prize in json_data]. *)
Definition prize_body (nobel_prize : value) (rows : list pydict)
  : result (list pydict) :=
  row ← prize_row nobel_prize;
  has_laureates ← py_contains nobel_prize "laureates";
  if has_laureates : bool then
    laureates ← py_get nobel_prize "laureates";
    items ← py_iter laureates;
    for_each items (prize_laureate_body row) rows
  else Ok (rows ++ [row]).

(** The list [rows] at the [return]. *)
Definition normalize_rows (json_data : value) : result (list pydict) :=
  let rows := [] in
  is_laureates ← py_contains json_data "laureates";
  if is_laureates : bool then
    json_data ← py_get json_data "laureates";
    items ← py_iter json_data;
    for_each items laureate_body rows
  else
    is_prizes ← py_contains json_data "nobelPrizes";
    if is_prizes : bool then
      json_data ← py_get json_data "nobelPrizes";
      items ← py_iter json_data;
      for_each items prize_body rows
    else Ok rows.

Definition normalize_to_dataframe (json_data : value)
  : result (DataFrame value) :=
  rows ← normalize_rows json_data;
  Ok (pd_DataFrame rows).

End Py.

(** ** The same code over a store of objects

    Dicts and lists are mutable objects held by reference; the scalars
    are immutable and held by value. A call takes the store it runs in
    and gives back the store it leaves. *)

Module Store.

Definition loc := positive.

Inductive sval : Type :=
| SNone
| SBool (b : bool)
| SInt (z : Z)
| SFloat (f : pyfloat)
| SStr (s : string)
| SRef (l : loc).

Inductive obj : Type :=
| ODict (d : list (string * sval))
| OList (items : list sval).

Abbreviation store := (gmap loc obj).

(** A call returns, raises, or follows a reference that the store does
    not hold; the last cannot happen in Python and is kept apart. *)
Inductive outcome (A : Type) : Type :=
| Returned (a : A)
| Raised (e : exn)
| Dangling.
Arguments Returned {A} a.
Arguments Raised {A} e.
Arguments Dangling {A}.

Definition M (A : Type) : Type := store → outcome A * store.

Global Instance M_ret : MRet M := λ A a σ, (Returned a, σ).
Global Instance M_bind : MBind M := λ A B f m σ,
  match m σ with
  | (Returned a, σ') => f a σ'
  | (Raised e, σ') => (Raised e, σ')
  | (Dangling, σ') => (Dangling, σ')
  end.

Definition raise {A} (e : exn) : M A := λ σ, (Raised e, σ).

Definition deref (l : loc) : M obj := λ σ,
  match σ !! l with
  | Some o => (Returned o, σ)
  | None => (Dangling, σ)
  end.

(** A new object gets a location the store does not use. *)
Definition alloc (o : obj) : M loc := λ σ,
  let l := fresh (dom σ) in (Returned l, <[l := o]> σ).

(** An update in place. *)
Definition assign (l : loc) (o : obj) : M unit := λ σ,
  (Returned (), <[l := o]> σ).

Definition np_nan : sval := SFloat NaN.

(** [elem == key] for a string [key]; a dict or a list is never equal to
    a string. *)
Definition eq_str (key : string) (elem : sval) : bool :=
  match elem with
  | SStr s => String.eqb s key
  | _ => false
  end.

(** [key in current]. *)
Definition py_in (key : string) (current : sval) : M bool :=
  match current with
  | SRef l =>
      o ← deref l;
      match o with
      | ODict d => mret (bool_decide (is_Some (dict_get key d)))
      | OList items => mret (existsb (eq_str key) items)
      end
  | SStr s => mret (is_substring key s)
  | SNone | SBool _ | SInt _ | SFloat _ => raise TypeError
  end.

(** [current.__contains__(key)]. *)
Definition py_contains (current : sval) (key : string) : M bool :=
  match current with
  | SRef _ | SStr _ => py_in key current
  | SNone | SBool _ | SInt _ | SFloat _ => raise AttributeError
  end.

(** [current[key]] for a string [key]. *)
Definition py_getitem (current : sval) (key : string) : M sval :=
  match current with
  | SRef l =>
      o ← deref l;
      match o with
      | ODict d =>
          match dict_get key d with
          | Some v => mret v
          | None => raise KeyError
          end
      | OList _ => raise TypeError
      end
  | _ => raise TypeError
  end.

(** [current.get(key)]. *)
Definition py_get (current : sval) (key : string) : M sval :=
  match current with
  | SRef l =>
      o ← deref l;
      match o with
      | ODict d => mret (default SNone (dict_get key d))
      | OList _ => raise AttributeError
      end
  | _ => raise AttributeError
  end.

(** The items of [for x in v]. The list or dict is read once, when the
    loop starts; the loop bodies below write to objects they allocate
    themselves only ([normalize_frame]), so the live iterator of Python
    yields the same items. *)
Definition py_iter (v : sval) : M (list sval) :=
  match v with
  | SRef l =>
      o ← deref l;
      match o with
      | OList items => mret items
      | ODict d => mret (map SStr (dict_keys d))
      end
  | SStr s => mret (map SStr (chars s))
  | SNone | SBool _ | SInt _ | SFloat _ => raise TypeError
  end.

Fixpoint for_each {A} (items : list A) (body : A → M unit) : M unit :=
  match items with
  | [] => mret ()
  | x :: items' => body x;; for_each items' body
  end.

(** [rows.append(x)]. *)
Definition list_append (rows : loc) (x : sval) : M unit :=
  o ← deref rows;
  match o with
  | OList items => assign rows (OList (items ++ [x]))
  | ODict _ => raise AttributeError
  end.

(** [row.copy()]: a new dict with the same entries. *)
Definition dict_copy (row : loc) : M loc :=
  o ← deref row;
  match o with
  | ODict d => alloc (ODict d)
  | OList items => alloc (OList items)
  end.

(** [new_row.update(other)]. *)
Definition dict_update_in_place (new_row other : loc) : M unit :=
  o ← deref new_row;
  o' ← deref other;
  match o, o' with
  | ODict d, ODict d' => assign new_row (ODict (dict_update d d'))
  | ODict _, OList _ => raise TypeError
  | OList _, _ => raise AttributeError
  end.

(** *** extract_nested_value *)

Fixpoint walk (keys : list string) (current default : sval) : M sval :=
  match keys with
  | [] => mret current
  | key :: keys' =>
      b ← py_in key current;
      if b : bool then
        current' ← py_getitem current key;
        walk keys' current' default
      else mret default
  end.

Definition extract_nested_value (data : sval) (path : string) (default : sval)
  : M sval :=
  let keys := split_on "." path in
  walk keys data default.

(** *** normalize_to_dataframe *)

Definition get_or_nan (x : sval) (key : string) : M sval :=
  b ← py_in key x;
  if b : bool then py_get x key else mret np_nan.

(** The dict displays: the entries are evaluated, then the dict is
    allocated. *)
Definition laureate_row (laureate : sval) : M loc :=
  laureate_id ← py_get laureate "id";
  known_name ← extract_nested_value laureate "knownName.en" np_nan;
  gender ← get_or_nan laureate "gender";
  birth_date ← extract_nested_value laureate "birth.date" np_nan;
  born_city ← extract_nested_value laureate "birth.place.city.en" np_nan;
  born_country ← extract_nested_value laureate "birth.place.country.en" np_nan;
  born_country_now ← extract_nested_value laureate "birth.place.countryNow.en" np_nan;
  continent ← extract_nested_value laureate "birth.place.continent.en" np_nan;
  death_date ← extract_nested_value laureate "death.date" np_nan;
  alloc (ODict [("laureate_id", laureate_id);
                ("known_name", known_name);
                ("gender", gender);
                ("birth_date", birth_date);
                ("born_city", born_city);
                ("born_country", born_country);
                ("born_country_now", born_country_now);
                ("continent", continent);
                ("death_date", death_date)]).

Definition prize_row (nobel_prize : sval) : M loc :=
  year ← get_or_nan nobel_prize "awardYear";
  category ← extract_nested_value nobel_prize "category.en" np_nan;
  date_awarded ← get_or_nan nobel_prize "dateAwarded";
  prize_amount ← get_or_nan nobel_prize "prizeAmount";
  prize_amount_adjusted ← get_or_nan nobel_prize "prizeAmountAdjusted";
  top_motivation ← extract_nested_value nobel_prize "topMotivation.en" np_nan;
  alloc (ODict [("year", year);
                ("category", category);
                ("date_awarded", date_awarded);
                ("prize_amount", prize_amount);
                ("prize_amount_adjusted", prize_amount_adjusted);
                ("top_motivation", top_motivation)]).

Definition laureate_fields (nobel_prize_laureate : sval) : M loc :=
  laureate_id ← py_get nobel_prize_laureate "id";
  motivation ← extract_nested_value nobel_prize_laureate "motivation.en" np_nan;
  portion ← extract_nested_value nobel_prize_laureate "portion" np_nan;
  alloc (ODict [("laureate_id", laureate_id);
                ("motivation", motivation);
                ("portion", portion)]).

Definition laureate_body (rows : loc) (laureate : sval) : M unit :=
  row ← laureate_row laureate;
  list_append rows (SRef row).

Definition prize_laureate_body (rows row : loc) (nobel_prize_laureate : sval)
  : M unit :=
  new_row ← dict_copy row;
  fields ← laureate_fields nobel_prize_laureate;
  dict_update_in_place new_row fields;;
  list_append rows (SRef new_row).

Definition prize_body (rows : loc) (nobel_prize : sval) : M unit :=
  row ← prize_row nobel_prize;
  has_laureates ← py_contains nobel_prize "laureates";
  if has_laureates : bool then
    laureates ← py_get nobel_prize "laureates";
    items ← py_iter laureates;
    for_each items (prize_laureate_body rows row)
  else list_append rows (SRef row).

(** One row dict of [rows], as [pd.DataFrame] reads it. *)
Definition read_row (row : sval) : M (list (string * sval)) :=
  match row with
  | SRef l =>
      o ← deref l;
      match o with
      | ODict d => mret d
      | OList _ => raise TypeError
      end
  | _ => raise TypeError
  end.

Fixpoint read_rows (items : list sval) : M (list (list (string * sval))) :=
  match items with
  | [] => mret []
  | row :: items' =>
      d ← read_row row;
      ds ← read_rows items';
      mret (d :: ds)
  end.

(** [pd.DataFrame(rows)]: the frame holds the objects of the cells, not
    the row dicts. Only the list case is reached. *)
Definition pd_DataFrame (rows : loc) : M (DataFrame sval) :=
  o ← deref rows;
  match o with
  | OList items =>
      dicts ← read_rows items;
      mret (frame_of_records np_nan dicts)
  | ODict _ => raise TypeError
  end.

Definition normalize_to_dataframe (json_data : sval) : M (DataFrame sval) :=
  rows ← alloc (OList []);
  (is_laureates ← py_contains json_data "laureates";
   if is_laureates : bool then
     json_data ← py_get json_data "laureates";
     items ← py_iter json_data;
     for_each items (laureate_body rows)
   else
     is_prizes ← py_contains json_data "nobelPrizes";
     if is_prizes : bool then
       json_data ← py_get json_data "nobelPrizes";
       items ← py_iter json_data;
       for_each items (prize_body rows)
     else mret ());;
  pd_DataFrame rows.

(** [repr σ x v]: in the store [σ], the object [x] is the tree [v]. *)
Inductive repr (σ : store) : sval → value → Prop :=
| repr_None : repr σ SNone VNone
| repr_Bool b : repr σ (SBool b) (VBool b)
| repr_Int z : repr σ (SInt z) (VInt z)
| repr_Float f : repr σ (SFloat f) (VFloat f)
| repr_Str s : repr σ (SStr s) (VStr s)
| repr_List l items vs :
    σ !! l = Some (OList items) →
    Forall2 (repr σ) items vs →
    repr σ (SRef l) (VList vs)
| repr_Dict l d vd :
    σ !! l = Some (ODict d) →
    Forall2 (λ kx kv, kx.1 = kv.1 ∧ repr σ kx.2 kv.2) d vd →
    repr σ (SRef l) (VDict vd).

(** The objects [json.loads] builds for a tree. *)
Fixpoint load (v : value) : M sval :=
  match v with
  | VNone => mret SNone
  | VBool b => mret (SBool b)
  | VInt z => mret (SInt z)
  | VFloat f => mret (SFloat f)
  | VStr s => mret (SStr s)
  | VList vs =>
      items ← (fix load_items (vs : list value) : M (list sval) :=
                 match vs with
                 | [] => mret []
                 | v :: vs' =>
                     x ← load v;
                     xs ← load_items vs';
                     mret (x :: xs)
                 end) vs;
      l ← alloc (OList items);
      mret (SRef l)
  | VDict vd =>
      d ← (fix load_entries (vd : list (string * value))
             : M (list (string * sval)) :=
             match vd with
             | [] => mret []
             | (k, v) :: vd' =>
                 x ← load v;
                 d' ← load_entries vd';
                 mret ((k, x) :: d')
             end) vd;
      l ← alloc (ODict d);
      mret (SRef l)
  end.

End Store.

(** ** Vocabulary of the properties *)

Section Vocabulary.
Import Py.

(** [resolves r keys v]: every segment of [keys] is a key of the mapping
    reached so far, and the last one holds [v]. *)
Inductive resolves : value → list string → value → Prop :=
| resolves_end v : resolves v [] v
| resolves_step d key keys child v :
    dict_get key d = Some child →
    resolves child keys v →
    resolves (VDict d) (key :: keys) v.

(** Every structure in which a segment of [keys] is looked up is a
    mapping; the walk ends at an absent key or at the end of [keys]. *)
Fixpoint path_safe (keys : list string) (current : value) : bool :=
  match keys with
  | [] => true
  | key :: keys' =>
      match current with
      | VDict d =>
          match dict_get key d with
          | Some child => path_safe keys' child
          | None => true
          end
      | _ => false
      end
  end.

Definition is_dict (v : value) : bool :=
  match v with VDict _ => true | _ => false end.

Definition laureate_columns : list string :=
  ["laureate_id"; "known_name"; "gender"; "birth_date"; "born_city";
   "born_country"; "born_country_now"; "continent"; "death_date"].

Definition prize_columns : list string :=
  ["year"; "category"; "date_awarded"; "prize_amount";
   "prize_amount_adjusted"; "top_motivation"].

Definition laureate_specific_columns : list string :=
  ["laureate_id"; "motivation"; "portion"].

Definition laureate_paths : list string :=
  ["knownName.en"; "birth.date"; "birth.place.city.en";
   "birth.place.country.en"; "birth.place.countryNow.en";
   "birth.place.continent.en"; "death.date"].

(** A laureate record none of whose fields makes the walk leave the
    mappings. *)
Definition laureate_wf (laureate : value) : bool :=
  is_dict laureate &&
  forallb (λ path, path_safe (split_on "." path) laureate) laureate_paths.

Definition embedded_wf (entry : value) : bool :=
  is_dict entry &&
  forallb (λ path, path_safe (split_on "." path) entry)
          ["motivation.en"; "portion"].

Definition prize_wf (nobel_prize : value) : bool :=
  match nobel_prize with
  | VDict d =>
      forallb (λ path, path_safe (split_on "." path) nobel_prize)
              ["category.en"; "topMotivation.en"] &&
      match dict_get "laureates" d with
      | Some (VList entries) => forallb embedded_wf entries
      | Some _ => false
      | None => true
      end
  | _ => false
  end.

(** The rows a prize record contributes: the base row once for each
    embedded laureate, extended by that laureate's three fields, or the
    base row alone when the record has no 'laureates' key. *)
Definition embedded_rows (base : pydict) (entries : list value)
    (block : list pydict) : Prop :=
  Forall2 (λ entry new_row,
             ∃ fields, laureate_fields entry = Ok fields ∧
                       dict_keys fields = laureate_specific_columns ∧
                       new_row = base ++ fields)
          entries block.

Definition prize_rows (nobel_prize : value) (block : list pydict) : Prop :=
  ∃ d base,
    nobel_prize = VDict d ∧
    prize_row nobel_prize = Ok base ∧
    dict_keys base = prize_columns ∧
    match dict_get "laureates" d with
    | Some laureates =>
        ∃ entries, laureates = VList entries ∧ embedded_rows base entries block
    | None =>
        block = [base] ∧
        Forall (λ c, cell base c = np_nan) laureate_specific_columns
    end.

(** A row dict that carries the laureate-specific keys. *)
Definition has_laureate_id (row : pydict) : bool :=
  bool_decide ("laureate_id" ∈ dict_keys row).

(** A row dict laid out on the columns of a frame. *)
Definition pad (cols : list string) (row : pydict) : pydict :=
  map (λ c, (c, cell row c)) cols.

(** The two shapes of a row dict of the nobelPrizes branch. *)
Definition prize_row_kind (row : pydict) : Prop :=
  dict_keys row = prize_columns ∨
  dict_keys row = prize_columns ++ laureate_specific_columns.

End Vocabulary.

(** ** What the store keeps *)

Section StoreVocabulary.
Import Store.

(** A call that leaves the store as it found it. *)
Definition read_only {A} (m : M A) : Prop := ∀ σ, (m σ).2 = σ.

(** A call run in any store that extends [σ0] leaves a store that still
    extends [σ0]; what it returns satisfies [Q]. *)
Definition grows {A} (σ0 : store) (m : M A) (Q : A → Prop) : Prop :=
  ∀ σ, σ0 ⊆ σ → σ0 ⊆ (m σ).2 ∧ ∀ a, (m σ).1 = Returned a → Q a.

Definition fresh_for (σ0 : store) (l : loc) : Prop := σ0 !! l = None.

(** The outcome in the store model of a result in the tree model. *)
Definition lift {A} (r : result A) : outcome A :=
  match r with
  | Ok a => Returned a
  | Raise e => Raised e
  end.

(** [sim R σ m r]: run in [σ], the call [m] of the store model ends as
    the call [r] of the tree model does: with the same exception, or with
    a value and a store that [R] relates to the value of [r]. *)
Definition sim {A B} (R : store → A → B → Prop) (σ : store)
    (m : M A) (r : result B) : Prop :=
  match r with
  | Ok b => ∃ a σ', m σ = (Returned a, σ') ∧ R σ' a b
  | Raise e => ∃ σ', m σ = (Raised e, σ')
  end.

(** A read that ends as the tree model's does and leaves the store. *)
Definition reads {A B} (R : A → B → Prop) (σ : store)
    (m : M A) (r : result B) : Prop :=
  sim (λ σ' a b, σ' = σ ∧ R a b) σ m r.

(** The entries of a dict object stand for those of a tree dict. *)
Definition entries_repr (σ0 : store) (d : list (string * sval)) (vd : pydict)
  : Prop :=
  Forall2 (λ kx kv, kx.1 = kv.1 ∧ repr σ0 kx.2 kv.2) d vd.

(** [r] is a row dict of the store [σ] whose cells are objects of the
    input store [σ0]. *)
Definition row_repr (σ0 σ : store) (r : sval) (row : pydict) : Prop :=
  ∃ l d, r = SRef l ∧ σ !! l = Some (ODict d) ∧ entries_repr σ0 d row.

(** The state of the loops: the input is untouched and the list [rows]
    holds the row dicts built so far. *)
Definition rows_inv (σ0 : store) (rows : loc) (σ : store)
    (built : list pydict) : Prop :=
  σ0 ⊆ σ ∧
  ∃ rs, σ !! rows = Some (OList rs) ∧ Forall2 (row_repr σ0 σ) rs built.

(** The inner loop of the nobelPrizes branch also keeps the base row. *)
Definition prize_inv (σ0 : store) (rows row : loc)
    (d : list (string * sval)) (σ : store) (built : list pydict) : Prop :=
  rows_inv σ0 rows σ built ∧ σ !! row = Some (ODict d).

(** The dict display at the end of a row builder: a new object. *)
Definition allocated (σ0 σ : store) (σ' : store) (l : loc) (row : pydict)
  : Prop :=
  ∃ d, σ !! l = None ∧ σ' = <[l := ODict d]> σ ∧ entries_repr σ0 d row.

(** [leads_to σ x keys y]: from the object [x], the keys lead through
    dict objects of the store to the object [y], the one held under the
    last key. *)
Inductive leads_to (σ : store) : sval → list string → sval → Prop :=
| leads_end x : leads_to σ x [] x
| leads_step l d key keys child y :
    σ !! l = Some (ODict d) →
    dict_get key d = Some child →
    leads_to σ child keys y →
    leads_to σ (SRef l) (key :: keys) y.

(** A frame of the store model shows the frame of the tree model. *)
Definition frame_repr (σ0 : store) (sdf : DataFrame sval)
    (df : DataFrame value) : Prop :=
  columns sdf = columns df ∧
  Forall2 (Forall2 (repr σ0)) (data sdf) (data df).

End StoreVocabulary.

(** ** Inputs used below *)

Definition marie_curie : value :=
  VDict [("id", VStr "1");
         ("knownName", VDict [("en", VStr "Marie Curie")]);
         ("birth", VDict [("date", VStr "1867-11-07");
                          ("place", VDict [("city", VDict [("en", VStr "Warsaw")])])])].


Definition prize_1903 : value :=
  VDict [("awardYear", VStr "1903");
         ("category", VDict [("en", VStr "Physics")]);
         ("laureates",
          VList [VDict [("id", VStr "a"); ("portion", VStr "1/2")];
                 VDict [("id", VStr "b"); ("portion", VStr "1/2")]])].

Definition prize_1916 : value :=
  VDict [("awardYear", VStr "1916");
         ("category", VDict [("en", VStr "Peace")])].

Definition curie_store : Store.store :=
  list_to_map
    [(1%positive, Store.ODict [("en", Store.SStr "Marie Curie")]);
     (2%positive, Store.ODict [("id", Store.SStr "1");
                               ("knownName", Store.SRef 1%positive)]);
     (3%positive, Store.OList [Store.SRef 2%positive]);
     (4%positive, Store.ODict [("laureates", Store.SRef 3%positive)])].

Definition curie_tree : value :=
  VDict [("laureates",
          VList [VDict [("id", VStr "1");
                        ("knownName", VDict [("en", VStr "Marie Curie")])]])].

(** ** The cells of the notebook around the two functions *)

Module Notebook.
Import Py.

(** [laureate.get('birth').get('date')], the chain of the exploration
    cell, on one laureate record. *)
Definition birth_date_chain (laureate : value) : result value :=
  birth ← py_get laureate "birth";
  py_get birth "date".

(** [isna] on one cell: [None] and NaN are missing. *)
Definition isna (v : value) : bool :=
  match v with
  | VNone | VFloat NaN => true
  | _ => false
  end.

(** [df[column]]: the cells of a column, KeyError without it. *)
Definition df_getitem (df : DataFrame value) (column : string)
  : result (list value) :=
  if bool_decide (column ∈ columns df)
  then Ok (map (λ row, cell row column) (records df))
  else Raise KeyError.

(** [df.loc[mask]]: the rows at which the mask holds, in order. *)
Fixpoint loc_mask {A} (rows : list A) (mask : list bool) : list A :=
  match rows, mask with
  | row :: rows', true :: mask' => row :: loc_mask rows' mask'
  | _ :: rows', false :: mask' => loc_mask rows' mask'
  | _, _ => []
  end.

(** [df.head()]: the first five rows. *)
Definition head {A} (rows : list A) : list A := take 5 rows.

(** The data quality cell,
    [nobel_prizes.loc[nobel_prizes['laureate_id'].isna()].head()]. *)
Definition quality_check (nobel_prizes : DataFrame value)
  : result (DataFrame value) :=
  ids ← df_getitem nobel_prizes "laureate_id";
  let mask := map isna ids in
  Ok {| columns := columns nobel_prizes;
        data := head (loc_mask (data nobel_prizes) mask) |}.

End Notebook.

(** ** Further vocabulary *)

Section MoreVocabulary.
Import Py.

(** The value a path leads to through nested mappings, if it does. *)
Fixpoint lookup_path (keys : list string) (r : value) : option value :=
  match keys with
  | [] => Some r
  | key :: keys' =>
      match r with
      | VDict d =>
          match dict_get key d with
          | Some child => lookup_path keys' child
          | None => None
          end
      | _ => None
      end
  end.

(** The first segment of a path. *)
Definition first_segment (path : string) : string :=
  hd EmptyString (split_on "." path).

(** The number of occurrences of a character. *)
Fixpoint count_char (c : ascii) (s : string) : nat :=
  match s with
  | EmptyString => 0
  | String c' s' => (if Ascii.eqb c' c then 1 else 0) + count_char c s'
  end.

(** The rows a well-formed prize record contributes. *)
Definition prize_count (nobel_prize : value) : nat :=
  match nobel_prize with
  | VDict d =>
      match dict_get "laureates" d with
      | Some (VList entries) => length entries
      | _ => 1
      end
  | _ => 1
  end.

(** A prize record that names no laureate. *)
Definition no_embedded (nobel_prize : value) : bool :=
  match nobel_prize with
  | VDict d =>
      match dict_get "laureates" d with
      | None | Some (VList []) => true
      | Some _ => false
      end
  | _ => false
  end.

(** A row dict the quality cell selects: no identifier, or a missing
    one. *)
Definition missing_id (row : pydict) : bool :=
  Notebook.isna (cell row "laureate_id").

(** The flat row of a laureate record whose fields stay inside
    mappings. *)
Definition flat_laureate (d : pydict) : pydict :=
  let at_path path :=
    default np_nan (lookup_path (split_on "." path) (VDict d)) in
  [("laureate_id", default VNone (dict_get "id" d));
   ("known_name", at_path "knownName.en");
   ("gender", default np_nan (dict_get "gender" d));
   ("birth_date", at_path "birth.date");
   ("born_city", at_path "birth.place.city.en");
   ("born_country", at_path "birth.place.country.en");
   ("born_country_now", at_path "birth.place.countryNow.en");
   ("continent", at_path "birth.place.continent.en");
   ("death_date", at_path "death.date")].

Definition is_list (v : value) : bool :=
  match v with VList _ => true | _ => false end.

(** A loop body that only appends to [rows], whatever [rows] holds: on
    an item it adds the same rows to any list, or raises the same
    exception. *)
Definition appends {A} (body : A → list pydict → result (list pydict)) : Prop :=
  ∀ x,
    (∃ new, ∀ rows, body x rows = Ok (rows ++ new)) ∨
    (∃ e, ∀ rows, body x rows = Raise e).

End MoreVocabulary.

(** ** The frame built from a list of row dicts *)

Section FrameFacts.
Context {V : Type} (nan : V).

Lemma records_length (rows : list (list (string * V))) :
  length (records (frame_of_records nan rows)) = length rows.
Proof. unfold records, frame_of_records. cbn. by rewrite !length_map. Qed.

(** Every row of a frame has the columns of the frame. *)
Lemma records_keys (rows : list (list (string * V))) :
  Forall (λ row, dict_keys row = columns (frame_of_records nan rows))
         (records (frame_of_records nan rows)).
Proof.
  unfold records, frame_of_records. cbn.
  apply Forall_map, Forall_map, Forall_true. intros row. cbn.
  unfold dict_keys. apply fst_zip. by rewrite length_map.
Qed.

Lemma add_column_elem cols k : k ∈ cols → add_column cols k = cols.
Proof. intros Hin. unfold add_column. by rewrite bool_decide_eq_true_2. Qed.

Lemma add_columns_included cols (row : list (string * V)) :
  (∀ k, k ∈ dict_keys row → k ∈ cols) → add_columns cols row = cols.
Proof.
  unfold add_columns. induction (dict_keys row) as [|k ks IH]; intros Hin.
  - done.
  - cbn. rewrite add_column_elem; [|apply Hin; left].
    apply IH. intros k' Hk'. apply Hin. by right.
Qed.

Lemma add_columns_fresh cols (row : list (string * V)) :
  NoDup (cols ++ dict_keys row) → add_columns cols row = cols ++ dict_keys row.
Proof.
  unfold add_columns. revert cols.
  induction (dict_keys row) as [|k ks IH]; intros cols Hnd.
  - by rewrite app_nil_r.
  - cbn. unfold add_column at 2. rewrite bool_decide_eq_false_2.
    + rewrite IH; rewrite <- app_assoc; [done | exact Hnd].
    + apply NoDup_app in Hnd as (_ & Hdisj & _).
      intros Hin. apply (Hdisj _ Hin). left.
Qed.

Lemma union_keys_uniform cols (rows : list (list (string * V))) :
  NoDup cols → rows ≠ [] →
  Forall (λ row, dict_keys row = cols) rows →
  union_keys rows = cols.
Proof.
  intros Hnd Hne Hall. destruct rows as [|row rows]; [done|].
  apply Forall_cons in Hall as [Hrow Hrows].
  unfold union_keys. cbn. rewrite add_columns_fresh; cbn; [|by rewrite Hrow].
  rewrite Hrow. clear Hrow Hne row.
  induction Hrows as [|row rows Hrow _ IH]; [done|].
  cbn. rewrite add_columns_included; [done | by rewrite Hrow].
Qed.

Lemma cell_head k v (row : list (string * V)) : fill nan ((k, v) :: row) k = v.
Proof. unfold fill. cbn. by rewrite String.eqb_refl. Qed.

Lemma cell_tail k v (row : list (string * V)) k' : k' ≠ k → fill nan ((k, v) :: row) k' = fill nan row k'.
Proof.
  intros Hne. unfold fill. cbn.
  by destruct (String.eqb_spec k' k).
Qed.

(** A dict with distinct keys is read back from its cells. *)
Lemma zip_cells (row : list (string * V)) :
  NoDup (dict_keys row) →
  zip (dict_keys row) (map (fill nan row) (dict_keys row)) = row.
Proof.
  induction row as [|[k v] row IH]; intros Hnd; [done|].
  cbn in Hnd. apply NoDup_cons in Hnd as [Hk Hnd].
  change (dict_keys ((k, v) :: row)) with (k :: dict_keys row).
  rewrite map_cons, cell_head. cbn [zip zip_with]. f_equal.
  etrans; [|exact (IH Hnd)]. f_equal.
  apply map_ext_in. intros k' Hk'. apply cell_tail.
  intros ->. apply Hk. by apply list_elem_of_In.
Qed.

Lemma records_uniform cols (rows : list (list (string * V))) :
  NoDup cols →
  Forall (λ row, dict_keys row = cols) rows →
  records (frame_of_records nan rows) = rows.
Proof.
  intros Hnd Hall. destruct (decide (rows = [])) as [->|Hne]; [done|].
  unfold records, frame_of_records. cbn.
  rewrite (union_keys_uniform cols rows Hnd Hne Hall).
  rewrite map_map. rewrite <- (map_id rows) at 2.
  apply map_ext_in. intros row Hin.
  rewrite Forall_forall in Hall.
  rewrite <- (Hall row); [|by apply list_elem_of_In].
  apply zip_cells. rewrite Hall; [done | by apply list_elem_of_In].
Qed.

End FrameFacts.

(** ** extract_nested_value *)

Section Resolver.
Import Py.

Lemma bind_ok {A B} (m : result A) (f : A → result B) a :
  m = Ok a → (m ≫= f) = f a.
Proof. by intros ->. Qed.

Lemma bind_raise {A B} (m : result A) (f : A → result B) e :
  m = Raise e → (m ≫= f) = Raise e.
Proof. by intros ->. Qed.

Lemma bind_returns {A B} (m : result A) (f : A → result B) b :
  (m ≫= f) = Ok b → ∃ a, m = Ok a ∧ f a = Ok b.
Proof. destruct m as [a|e]; [by exists a | done]. Qed.

Lemma walk_dict_present keys key d child dflt :
  dict_get key d = Some child →
  walk (key :: keys) (VDict d) dflt = walk keys child dflt.
Proof.
  intros Hget. cbn. rewrite Hget.
  by rewrite bool_decide_eq_true_2.
Qed.

Lemma walk_dict_absent keys key d dflt :
  dict_get key d = None →
  walk (key :: keys) (VDict d) dflt = Ok dflt.
Proof.
  intros Hget. cbn. rewrite Hget.
  rewrite bool_decide_eq_false_2; [done | by intros [? ?]].
Qed.

(** A key that is absent from the mapping reached ends the walk with the
    default. *)
Lemma extract_absent_key d path key keys dflt :
  split_on "." path = key :: keys →
  dict_get key d = None →
  extract_nested_value (VDict d) path dflt = Ok dflt.
Proof.
  intros Hsplit Hget. unfold extract_nested_value. rewrite Hsplit.
  by apply walk_dict_absent.
Qed.

(** A walk that stays inside mappings returns: the value or the default. *)
Lemma walk_path_safe keys current dflt :
  path_safe keys current = true → returns (walk keys current dflt).
Proof.
  revert current. induction keys as [|key keys IH]; intros current Hsafe.
  - by eexists.
  - destruct current as [| | | | |?|d]; try discriminate Hsafe.
    cbn in Hsafe. destruct (dict_get key d) as [child|] eqn:Hget.
    + rewrite (walk_dict_present _ _ _ _ _ Hget). by apply IH.
    + rewrite (walk_dict_absent _ _ _ _ Hget). by eexists.
Qed.

Lemma extract_path_safe data path dflt :
  path_safe (split_on "." path) data = true →
  returns (extract_nested_value data path dflt).
Proof. apply walk_path_safe. Qed.

Lemma walk_resolves keys r v dflt :
  resolves r keys v → walk keys r dflt = Ok v.
Proof.
  induction 1 as [v | d key keys child v Hget _ IH]; [done|].
  by rewrite (walk_dict_present _ _ _ _ _ Hget).
Qed.

(** Walking into [None], a number or a boolean raises. *)
Lemma walk_scalar_raises key keys current dflt :
  match current with
  | VNone | VBool _ | VInt _ | VFloat _ => True
  | _ => False
  end →
  walk (key :: keys) current dflt = Raise TypeError.
Proof. by destruct current. Qed.

(** A string or a list that holds the segment raises as well: the
    subscript needs an integer. *)
Lemma walk_str_raises key keys s dflt :
  is_substring key s = true →
  walk (key :: keys) (VStr s) dflt = Raise TypeError.
Proof. intros Hsub. cbn. by rewrite Hsub. Qed.

Lemma walk_str_default key keys s dflt :
  is_substring key s = false →
  walk (key :: keys) (VStr s) dflt = Ok dflt.
Proof. intros Hsub. cbn. by rewrite Hsub. Qed.

End Resolver.

(** Splits [m ≫= f = Ok b] into the two calls that returned. *)
Tactic Notation "inv_bind" hyp(H) :=
  let x := fresh "x" in
  let Hx := fresh "H" x in
  apply bind_returns in H as (x & Hx & H).

Tactic Notation "inv_bind" hyp(H) "as" ident(x) ident(Hx) :=
  apply bind_returns in H as (x & Hx & H).

(** ** normalize_to_dataframe: the laureates branch *)

Section Normalizer.
Import Py.

Lemma get_or_nan_dict d key :
  get_or_nan (VDict d) key = Ok (default np_nan (dict_get key d)).
Proof.
  unfold get_or_nan. cbn. destruct (dict_get key d) as [v|] eqn:Hget.
  - by rewrite bool_decide_eq_true_2.
  - rewrite bool_decide_eq_false_2; [done | by intros [? ?]].
Qed.

Lemma laureate_row_keys laureate row :
  laureate_row laureate = Ok row → dict_keys row = laureate_columns.
Proof.
  unfold laureate_row. intros H.
  do 9 inv_bind H. by injection H as <-.
Qed.

Lemma laureate_row_wf laureate :
  laureate_wf laureate = true → returns (laureate_row laureate).
Proof.
  unfold laureate_wf. intros Hwf.
  apply andb_true_iff in Hwf as [Hdict Hpaths].
  destruct laureate as [| | | | | |d]; try discriminate Hdict.
  rewrite forallb_forall in Hpaths.
  assert (Hex : ∀ path, In path laureate_paths →
            returns (extract_nested_value (VDict d) path np_nan)).
  { intros path Hin. apply extract_path_safe. by apply Hpaths. }
  unfold laureate_row.
  rewrite get_or_nan_dict.
  destruct (Hex "knownName.en") as [v1 ->]; [cbn; tauto|].
  destruct (Hex "birth.date") as [v2 ->]; [cbn; tauto|].
  destruct (Hex "birth.place.city.en") as [v3 ->]; [cbn; tauto|].
  destruct (Hex "birth.place.country.en") as [v4 ->]; [cbn; tauto|].
  destruct (Hex "birth.place.countryNow.en") as [v5 ->]; [cbn; tauto|].
  destruct (Hex "birth.place.continent.en") as [v6 ->]; [cbn; tauto|].
  destruct (Hex "death.date") as [v7 ->]; [cbn; tauto|].
  by eexists.
Qed.

(** The loop of the laureates branch appends one row per record, in
    order. *)
Lemma for_each_laureate_body_inv recs rows0 out :
  for_each recs laureate_body rows0 = Ok out →
  ∃ rows, out = rows0 ++ rows ∧
          Forall2 (λ rec row, laureate_row rec = Ok row) recs rows.
Proof.
  revert rows0. induction recs as [|rec recs IH]; intros rows0 H.
  - injection H as <-. exists []. by rewrite app_nil_r.
  - cbn in H. inv_bind H. unfold laureate_body in Hx.
    inv_bind Hx. injection Hx as <-.
    destruct (IH _ H) as (rows & -> & Hrows).
    exists (x0 :: rows). split; [by rewrite <- app_assoc | by constructor].
Qed.

Lemma for_each_laureate_body_wf recs rows0 :
  forallb laureate_wf recs = true →
  returns (for_each recs laureate_body rows0).
Proof.
  revert rows0. induction recs as [|rec recs IH]; intros rows0 Hwf.
  - by eexists.
  - cbn in Hwf. apply andb_true_iff in Hwf as [Hrec Hrecs].
    destruct (laureate_row_wf _ Hrec) as [row Hrow].
    change (for_each (rec :: recs) laureate_body rows0)
      with (laureate_body rec rows0 ≫= for_each recs laureate_body).
    unfold laureate_body. rewrite Hrow. cbn. by apply IH.
Qed.

Lemma laureate_columns_NoDup : NoDup laureate_columns.
Proof. apply (bool_decide_unpack _). by vm_compute. Qed.

Lemma normalize_rows_laureates d ls :
  dict_get "laureates" d = Some ls →
  normalize_rows (VDict d) =
    (items ← py_iter ls; for_each items laureate_body []).
Proof.
  intros Hget. unfold normalize_rows. cbn. rewrite Hget.
  by rewrite bool_decide_eq_true_2.
Qed.

(** ** normalize_to_dataframe: the nobelPrizes branch *)

Lemma prize_row_keys nobel_prize row :
  prize_row nobel_prize = Ok row → dict_keys row = prize_columns.
Proof.
  unfold prize_row. intros H. do 6 inv_bind H. by injection H as <-.
Qed.

Lemma laureate_fields_keys entry fields :
  laureate_fields entry = Ok fields →
  dict_keys fields = laureate_specific_columns.
Proof.
  unfold laureate_fields. intros H. do 3 inv_bind H. by injection H as <-.
Qed.

(** [new_row.update] adds the three laureate keys after the six of the
    base row: none of them is a key of the base row. *)
Lemma update_base_row (base fields : pydict) :
  dict_keys base = prize_columns →
  dict_keys fields = laureate_specific_columns →
  dict_update base fields = base ++ fields.
Proof.
  intros Hbase Hfields.
  destruct base as [|[b1 ?] [|[b2 ?] [|[b3 ?] [|[b4 ?] [|[b5 ?] [|[b6 ?] [|]]]]]]];
    try discriminate Hbase.
  destruct fields as [|[f1 ?] [|[f2 ?] [|[f3 ?] [|]]]]; try discriminate Hfields.
  cbn in Hbase, Hfields.
  injection Hbase as -> -> -> -> -> ->. injection Hfields as -> -> ->.
  reflexivity.
Qed.

Lemma prize_row_wf d :
  prize_wf (VDict d) = true → returns (prize_row (VDict d)).
Proof.
  unfold prize_wf. intros Hwf.
  apply andb_true_iff in Hwf as [Hpaths _].
  cbn [forallb] in Hpaths.
  apply andb_true_iff in Hpaths as [Hp1 Hp2].
  apply andb_true_iff in Hp2 as [Hp2 _].
  unfold prize_row. rewrite !get_or_nan_dict.
  destruct (extract_path_safe _ _ np_nan Hp1) as [v1 ->].
  destruct (extract_path_safe _ _ np_nan Hp2) as [v2 ->].
  by eexists.
Qed.

Lemma laureate_fields_wf entry :
  embedded_wf entry = true → returns (laureate_fields entry).
Proof.
  unfold embedded_wf. intros Hwf.
  apply andb_true_iff in Hwf as [Hdict Hpaths].
  destruct entry as [| | | | | |d]; try discriminate Hdict.
  cbn [forallb] in Hpaths.
  apply andb_true_iff in Hpaths as [Hp1 Hp2].
  apply andb_true_iff in Hp2 as [Hp2 _].
  unfold laureate_fields.
  destruct (extract_path_safe _ _ np_nan Hp1) as [v1 ->].
  destruct (extract_path_safe _ _ np_nan Hp2) as [v2 ->].
  by eexists.
Qed.

(** The base row has no cell for a laureate-specific column: the frame
    fills it with NaN. *)
Lemma base_row_cells (base : pydict) :
  dict_keys base = prize_columns →
  Forall (λ c, cell base c = np_nan) laureate_specific_columns.
Proof.
  intros Hbase.
  destruct base as [|[b1 ?] [|[b2 ?] [|[b3 ?] [|[b4 ?] [|[b5 ?] [|[b6 ?] [|]]]]]]];
    try discriminate Hbase.
  cbn in Hbase. injection Hbase as -> -> -> -> -> ->.
  by repeat constructor.
Qed.

(** The inner loop appends one row per embedded laureate, in order. *)
Lemma for_each_prize_laureate_body_inv base entries rows0 out :
  dict_keys base = prize_columns →
  for_each entries (prize_laureate_body base) rows0 = Ok out →
  ∃ block, out = rows0 ++ block ∧ embedded_rows base entries block.
Proof.
  intros Hbase. revert rows0.
  induction entries as [|entry entries IH]; intros rows0 H.
  - injection H as <-. exists []. split; [by rewrite app_nil_r | constructor].
  - cbn in H. inv_bind H. unfold prize_laureate_body in Hx.
    inv_bind Hx. injection Hx as <-.
    destruct (IH _ H) as (block & -> & Hblock).
    pose proof (laureate_fields_keys _ _ Hx0) as Hkeys.
    exists ((base ++ x0) :: block). split.
    + by rewrite <- app_assoc, update_base_row.
    + constructor; [by exists x0 | done].
Qed.

Lemma for_each_prize_laureate_body_wf base entries rows0 :
  forallb embedded_wf entries = true →
  returns (for_each entries (prize_laureate_body base) rows0).
Proof.
  revert rows0. induction entries as [|entry entries IH]; intros rows0 Hwf.
  - by eexists.
  - cbn in Hwf. apply andb_true_iff in Hwf as [Hentry Hentries].
    destruct (laureate_fields_wf _ Hentry) as [fields Hfields].
    change (for_each (entry :: entries) (prize_laureate_body base) rows0)
      with (prize_laureate_body base entry rows0
              ≫= for_each entries (prize_laureate_body base)).
    unfold prize_laureate_body. rewrite Hfields. cbn. by apply IH.
Qed.

(** One pass of the outer loop over a well-formed prize record. *)
Lemma prize_body_wf nobel_prize rows0 :
  prize_wf nobel_prize = true →
  ∃ block, prize_body nobel_prize rows0 = Ok (rows0 ++ block) ∧
           prize_rows nobel_prize block.
Proof.
  intros Hwf.
  destruct nobel_prize as [| | | | | |d]; try discriminate Hwf.
  destruct (prize_row_wf d Hwf) as [base Hbase].
  pose proof (prize_row_keys _ _ Hbase) as Hkeys.
  unfold prize_wf in Hwf. apply andb_true_iff in Hwf as [_ Hls].
  unfold prize_body. rewrite Hbase. cbn.
  destruct (dict_get "laureates" d) as [ls|] eqn:Hget.
  - rewrite bool_decide_eq_true_2; [|by eexists].
    destruct ls as [| | | | |entries|]; try discriminate Hls.
    cbn.
    destruct (for_each_prize_laureate_body_wf base entries rows0 Hls)
      as [out Hout].
    destruct (for_each_prize_laureate_body_inv _ _ _ _ Hkeys Hout)
      as (block & -> & Hblock).
    exists block. split; [done|].
    exists d, base. rewrite Hget. repeat split; [done..|].
    by exists entries.
  - rewrite bool_decide_eq_false_2; [|by intros [? ?]].
    exists [base]. split; [done|].
    exists d, base. rewrite Hget. repeat split; [done..|].
    by apply base_row_cells.
Qed.

Lemma for_each_prize_body_wf prizes rows0 :
  forallb prize_wf prizes = true →
  ∃ blocks, for_each prizes prize_body rows0 = Ok (rows0 ++ concat blocks) ∧
            Forall2 prize_rows prizes blocks.
Proof.
  revert rows0. induction prizes as [|nobel_prize prizes IH]; intros rows0 Hwf.
  - exists []. split; [by rewrite app_nil_r | constructor].
  - cbn in Hwf. apply andb_true_iff in Hwf as [Hprize Hprizes].
    destruct (prize_body_wf nobel_prize rows0 Hprize) as (block & Hbody & Hblock).
    destruct (IH (rows0 ++ block) Hprizes) as (blocks & Hloop & Hblocks).
    exists (block :: blocks). split; [|by constructor].
    change (for_each (nobel_prize :: prizes) prize_body rows0)
      with (prize_body nobel_prize rows0 ≫= for_each prizes prize_body).
    rewrite Hbody. cbn [mbind result_bind]. rewrite Hloop.
    by rewrite <- app_assoc.
Qed.

Lemma normalize_rows_prizes d ps :
  dict_get "laureates" d = None →
  dict_get "nobelPrizes" d = Some ps →
  normalize_rows (VDict d) =
    (items ← py_iter ps; for_each items prize_body []).
Proof.
  intros Hl Hp. unfold normalize_rows. cbn. rewrite Hl, Hp.
  rewrite bool_decide_eq_false_2; [|by intros [? ?]].
  by rewrite bool_decide_eq_true_2.
Qed.

Lemma records_pad (rows : list pydict) :
  records (pd_DataFrame rows) = map (pad (columns (pd_DataFrame rows))) rows.
Proof.
  unfold records, frame_of_records, pad. cbn. rewrite map_map.
  apply map_ext. intros row.
  induction (union_keys rows) as [|c cols IH]; [done|].
  cbn. by rewrite IH.
Qed.

(** *** The columns of the prize frame *)

Lemma embedded_rows_kind base entries block :
  dict_keys base = prize_columns →
  embedded_rows base entries block →
  Forall (λ row, dict_keys row = prize_columns ++ laureate_specific_columns)
         block.
Proof.
  intros Hbase. induction 1 as [|entry row entries block Hrow _ IH];
    constructor; [|done].
  destruct Hrow as (fields & _ & Hkeys & ->).
  unfold dict_keys in *. by rewrite map_app, Hbase, Hkeys.
Qed.

Lemma prize_body_inv nobel_prize rows0 out :
  prize_body nobel_prize rows0 = Ok out →
  ∃ block, out = rows0 ++ block ∧ Forall prize_row_kind block.
Proof.
  unfold prize_body. intros H. inv_bind H. inv_bind H.
  pose proof (prize_row_keys _ _ Hx) as Hkeys.
  destruct x0.
  - inv_bind H. inv_bind H.
    destruct (for_each_prize_laureate_body_inv _ _ _ _ Hkeys H)
      as (block & -> & Hblock).
    exists block. split; [done|].
    eapply Forall_impl; [by eapply embedded_rows_kind|].
    intros row Hrow. by right.
  - injection H as <-. exists [x]. split; [done|].
    constructor; [by left | constructor].
Qed.

Lemma for_each_prize_body_inv prizes rows0 out :
  for_each prizes prize_body rows0 = Ok out →
  ∃ rows, out = rows0 ++ rows ∧ Forall prize_row_kind rows.
Proof.
  revert rows0. induction prizes as [|nobel_prize prizes IH]; intros rows0 H.
  - injection H as <-. exists []. by rewrite app_nil_r.
  - cbn in H. inv_bind H.
    destruct (prize_body_inv _ _ _ Hx) as (block & -> & Hblock).
    destruct (IH _ H) as (rows & -> & Hrows).
    exists (block ++ rows). split; [by rewrite app_assoc|].
    by apply Forall_app.
Qed.

Lemma add_columns_keys cols (row : pydict) keys :
  dict_keys row = keys →
  add_columns cols row = fold_left add_column keys cols.
Proof. by intros <-. Qed.

Lemma fold_add_columns_full (rows : list pydict) :
  Forall prize_row_kind rows →
  fold_left add_columns rows (prize_columns ++ laureate_specific_columns)
  = prize_columns ++ laureate_specific_columns.
Proof.
  induction 1 as [|row rows [Hrow|Hrow] _ IH]; [done|..]; cbn [fold_left];
    by rewrite (add_columns_keys _ _ _ Hrow).
Qed.

Lemma fold_add_columns_some_full (rows : list pydict) cols :
  cols = [] ∨ cols = prize_columns →
  Forall prize_row_kind rows →
  existsb has_laureate_id rows = true →
  fold_left add_columns rows cols
  = prize_columns ++ laureate_specific_columns.
Proof.
  intros Hcols Hall. revert cols Hcols.
  induction Hall as [|row rows [Hrow|Hrow] Hall IH]; intros cols Hcols Hex;
    [done|..]; cbn [fold_left]; rewrite (add_columns_keys _ _ _ Hrow).
  - cbn in Hex. unfold has_laureate_id in Hex at 1. rewrite Hrow in Hex.
    apply IH; [right | exact Hex]. by destruct Hcols as [-> | ->].
  - etrans; [|by apply fold_add_columns_full].
    by destruct Hcols as [-> | ->].
Qed.

Lemma not_full_row_keys row :
  prize_row_kind row → has_laureate_id row = false →
  dict_keys row = prize_columns.
Proof.
  unfold has_laureate_id. intros [Hrow|Hrow] Hfull; [done|].
  by rewrite Hrow in Hfull.
Qed.

Lemma prize_columns_NoDup : NoDup prize_columns.
Proof. apply (bool_decide_unpack _). by vm_compute. Qed.

Lemma union_keys_prize (rows : list pydict) :
  Forall prize_row_kind rows →
  union_keys rows =
    if existsb has_laureate_id rows
    then prize_columns ++ laureate_specific_columns
    else match rows with [] => [] | _ :: _ => prize_columns end.
Proof.
  intros Hall. destruct (existsb has_laureate_id rows) eqn:Hex.
  - apply fold_add_columns_some_full; auto.
  - destruct rows as [|row rows]; [done|].
    apply union_keys_uniform; [apply prize_columns_NoDup | done |].
    rewrite Forall_forall in Hall. apply Forall_forall. intros r Hr.
    apply not_full_row_keys; [by apply Hall|].
    destruct (has_laureate_id r) eqn:Hfull; [|done].
    rewrite <- Hex. symmetry. apply existsb_exists. exists r.
    split; [by apply list_elem_of_In | done].
Qed.

End Normalizer.

(** ** The store across a call *)

Section StoreFacts.
Import Store.

Lemma read_only_ret {A} (a : A) : read_only (mret a).
Proof. done. Qed.

Lemma read_only_raise {A} e : read_only (@raise A e).
Proof. done. Qed.

Lemma read_only_deref l : read_only (deref l).
Proof. intros σ. unfold deref. by destruct (σ !! l). Qed.

Lemma read_only_bind {A B} (m : M A) (f : A → M B) :
  read_only m → (∀ a, read_only (f a)) → read_only (m ≫= f).
Proof.
  intros Hm Hf σ. unfold mbind, M_bind. specialize (Hm σ).
  destruct (m σ) as [[a| |] σ']; cbn in *; subst; [apply Hf | done..].
Qed.

Create HintDb read_only discriminated.
Hint Resolve read_only_ret read_only_raise read_only_deref : read_only.

Ltac read_only_tac :=
  repeat first
    [ apply read_only_ret | apply read_only_raise | apply read_only_deref
    | apply read_only_bind; [|intros ?]
    | match goal with
      | |- read_only (match ?x with _ => _ end) => destruct x
      | |- read_only (if ?b then _ else _) => destruct b
      end
    | solve [auto with read_only] ].

Lemma read_only_py_in key current : read_only (py_in key current).
Proof. unfold py_in. read_only_tac. Qed.

Lemma read_only_py_contains current key : read_only (py_contains current key).
Proof. unfold py_contains. destruct current; read_only_tac; apply read_only_py_in. Qed.

Lemma read_only_py_getitem current key : read_only (py_getitem current key).
Proof. unfold py_getitem. read_only_tac. Qed.

Lemma read_only_py_get current key : read_only (py_get current key).
Proof. unfold py_get. read_only_tac. Qed.

Lemma read_only_py_iter v : read_only (py_iter v).
Proof. unfold py_iter. read_only_tac. Qed.

Hint Resolve read_only_py_in read_only_py_contains read_only_py_getitem
  read_only_py_get read_only_py_iter : read_only.

Lemma read_only_walk keys current dflt : read_only (walk keys current dflt).
Proof.
  revert current. induction keys as [|key keys IH]; intros current; cbn [walk].
  - apply read_only_ret.
  - read_only_tac.
Qed.

Lemma read_only_extract_nested_value data path dflt :
  read_only (extract_nested_value data path dflt).
Proof. apply read_only_walk. Qed.

Lemma read_only_get_or_nan x key : read_only (get_or_nan x key).
Proof. unfold get_or_nan. read_only_tac. Qed.

Hint Resolve read_only_extract_nested_value read_only_get_or_nan : read_only.

Lemma read_only_read_rows items : read_only (read_rows items).
Proof.
  induction items as [|row items IH]; cbn [read_rows]; [apply read_only_ret|].
  unfold read_row. read_only_tac.
Qed.

Lemma read_only_pd_DataFrame rows : read_only (pd_DataFrame rows).
Proof.
  pose proof read_only_read_rows. unfold pd_DataFrame. read_only_tac.
Qed.

(** *** Writes go to new objects only *)

Lemma grows_read_only {A} σ0 (m : M A) :
  read_only m → grows σ0 m (λ _, True).
Proof. intros Hm σ Hσ. by rewrite Hm. Qed.

Lemma grows_ret {A} σ0 (a : A) (Q : A → Prop) : Q a → grows σ0 (mret a) Q.
Proof. intros HQ σ Hσ. split; [done|]. by intros a' [= <-]. Qed.

Lemma grows_weaken {A} σ0 (m : M A) (Q R : A → Prop) :
  grows σ0 m Q → (∀ a, Q a → R a) → grows σ0 m R.
Proof.
  intros Hm HQR σ Hσ. destruct (Hm σ Hσ) as [Hsub HQ].
  split; [done|]. intros a Ha. by apply HQR, HQ.
Qed.

Lemma grows_bind {A B} σ0 (m : M A) (f : A → M B) Q R :
  grows σ0 m Q → (∀ a, Q a → grows σ0 (f a) R) → grows σ0 (m ≫= f) R.
Proof.
  intros Hm Hf σ Hσ. unfold mbind, M_bind.
  destruct (Hm σ Hσ) as [Hsub HQ].
  destruct (m σ) as [[a|e|] σ']; cbn in *.
  - by apply Hf; [apply HQ|].
  - by split.
  - by split.
Qed.

Lemma grows_alloc σ0 o : grows σ0 (alloc o) (fresh_for σ0).
Proof.
  intros σ Hσ. unfold alloc. cbn.
  assert (Hfresh : σ !! fresh (dom σ) = None).
  { apply not_elem_of_dom, is_fresh. }
  assert (Hfresh0 : fresh_for σ0 (fresh (dom σ))).
  { unfold fresh_for. destruct (σ0 !! fresh (dom σ)) as [o'|] eqn:Hl; [|done].
    rewrite (lookup_weaken _ _ _ _ Hl Hσ) in Hfresh. discriminate. }
  split.
  - by apply insert_subseteq_r.
  - by intros a [= <-].
Qed.

Lemma grows_assign σ0 l o :
  fresh_for σ0 l → grows σ0 (assign l o) (λ _, True).
Proof.
  intros Hl σ Hσ. unfold assign. cbn. split; [|done].
  by apply insert_subseteq_r.
Qed.

Lemma grows_list_append σ0 rows x :
  fresh_for σ0 rows → grows σ0 (list_append rows x) (λ _, True).
Proof.
  intros Hl. unfold list_append.
  eapply grows_bind; [apply grows_read_only, read_only_deref|].
  intros [d|items] _.
  - apply grows_read_only, read_only_raise.
  - by apply grows_assign.
Qed.

Lemma grows_dict_copy σ0 row : grows σ0 (dict_copy row) (fresh_for σ0).
Proof.
  unfold dict_copy.
  eapply grows_bind; [apply grows_read_only, read_only_deref|].
  intros [d|items] _; apply grows_alloc.
Qed.

Lemma grows_dict_update_in_place σ0 new_row other :
  fresh_for σ0 new_row →
  grows σ0 (dict_update_in_place new_row other) (λ _, True).
Proof.
  intros Hl. unfold dict_update_in_place.
  eapply grows_bind; [apply grows_read_only, read_only_deref|].
  intros o _.
  eapply grows_bind; [apply grows_read_only, read_only_deref|].
  intros o' _.
  destruct o as [d|items], o' as [d'|items'];
    first [by apply grows_assign | apply grows_read_only, read_only_raise].
Qed.

(** Runs the reads at the head of a dict display. *)
Ltac skip_reads :=
  repeat (eapply grows_bind;
          [apply grows_read_only; solve [auto with read_only] | intros ? _]).

Lemma grows_laureate_row σ0 laureate :
  grows σ0 (laureate_row laureate) (fresh_for σ0).
Proof. unfold laureate_row. skip_reads. apply grows_alloc. Qed.

Lemma grows_prize_row σ0 nobel_prize :
  grows σ0 (prize_row nobel_prize) (fresh_for σ0).
Proof. unfold prize_row. skip_reads. apply grows_alloc. Qed.

Lemma grows_laureate_fields σ0 entry :
  grows σ0 (laureate_fields entry) (fresh_for σ0).
Proof. unfold laureate_fields. skip_reads. apply grows_alloc. Qed.

Lemma grows_for_each {A} σ0 (items : list A) (body : A → M unit) :
  (∀ x, grows σ0 (body x) (λ _, True)) →
  grows σ0 (for_each items body) (λ _, True).
Proof.
  intros Hbody. induction items as [|x items IH]; cbn [for_each].
  - by apply grows_ret.
  - eapply grows_bind; [apply Hbody | by intros _ _].
Qed.

Lemma grows_laureate_body σ0 rows laureate :
  fresh_for σ0 rows → grows σ0 (laureate_body rows laureate) (λ _, True).
Proof.
  intros Hrows. unfold laureate_body.
  eapply grows_bind; [apply grows_laureate_row|].
  intros row _. by apply grows_list_append.
Qed.

Lemma grows_prize_laureate_body σ0 rows row entry :
  fresh_for σ0 rows →
  grows σ0 (prize_laureate_body rows row entry) (λ _, True).
Proof.
  intros Hrows. unfold prize_laureate_body.
  eapply grows_bind; [apply grows_dict_copy|]. intros new_row Hnew.
  eapply grows_bind; [apply grows_laureate_fields|]. intros fields _.
  eapply grows_bind; [by apply grows_dict_update_in_place|]. intros _ _.
  by apply grows_list_append.
Qed.

Lemma grows_prize_body σ0 rows nobel_prize :
  fresh_for σ0 rows → grows σ0 (prize_body rows nobel_prize) (λ _, True).
Proof.
  intros Hrows. unfold prize_body.
  eapply grows_bind; [apply grows_prize_row|]. intros row _.
  skip_reads. destruct a.
  - skip_reads. apply grows_for_each. intros entry.
    by apply grows_prize_laureate_body.
  - by apply grows_list_append.
Qed.

Lemma grows_normalize_to_dataframe σ0 json_data :
  grows σ0 (normalize_to_dataframe json_data) (λ _, True).
Proof.
  unfold normalize_to_dataframe.
  eapply grows_bind; [apply grows_alloc|]. intros rows Hrows.
  eapply grows_bind; [|intros _ _; apply grows_read_only, read_only_pd_DataFrame].
  skip_reads. destruct a.
  - skip_reads. apply grows_for_each. intros laureate.
    by apply grows_laureate_body.
  - skip_reads. destruct a.
    + skip_reads. apply grows_for_each. intros nobel_prize.
      by apply grows_prize_body.
    + by apply grows_ret.
Qed.

(** Every object of the store before the call is in the store after it,
    unchanged. *)
Lemma normalize_frame json_data σ :
  σ ⊆ (normalize_to_dataframe json_data σ).2.
Proof. by apply (grows_normalize_to_dataframe σ json_data σ). Qed.

(** *** What a reference stands for *)

Lemma repr_mono σ σ' :
  σ ⊆ σ' → ∀ x v, repr σ x v → repr σ' x v.
Proof.
  intros Hsub. fix IH 3. intros x v H.
  destruct H as [| | | | | l items vs Hl Hitems | l d vd Hl Hd].
  - constructor.
  - constructor.
  - constructor.
  - constructor.
  - constructor.
  - eapply repr_List; [by eapply lookup_weaken|]. clear Hl.
    induction Hitems as [|item v items vs Hitem _ IHitems]; constructor;
      [by apply IH | exact IHitems].
  - eapply repr_Dict; [by eapply lookup_weaken|]. clear Hl.
    induction Hd as [|kx kv d vd [Hk Hx] _ IHd]; constructor;
      [split; [exact Hk | by apply IH] | exact IHd].
Qed.

End StoreFacts.

(** Loading a tree gives a reference that stands for it, and touches no
    object of the store it is loaded into. *)
Lemma load_repr (v : value) (σ : Store.store) :
  ∃ x σ', Store.load v σ = (Store.Returned x, σ') ∧ σ ⊆ σ' ∧
          Store.repr σ' x v.
Proof.
  revert v σ. fix IH 1. intros [| b | z | f | s | vs | vd] σ.
  - exists Store.SNone, σ. repeat split; [done | constructor].
  - exists (Store.SBool b), σ. repeat split; [done | constructor].
  - exists (Store.SInt z), σ. repeat split; [done | constructor].
  - exists (Store.SFloat f), σ. repeat split; [done | constructor].
  - exists (Store.SStr s), σ. repeat split; [done | constructor].
  - cbn [Store.load].
    match goal with |- context [mbind _ (?F vs)] => set (load_items := F) end.
    assert (Hitems : ∃ xs σ', load_items vs σ = (Store.Returned xs, σ') ∧
                       σ ⊆ σ' ∧ Forall2 (Store.repr σ') xs vs).
    { revert σ. induction vs as [|v vs IHvs]; intros σ.
      - by exists [], σ.
      - destruct (IH v σ) as (x & σ1 & Hx & Hsub1 & Hrx).
        destruct (IHvs σ1) as (xs & σ2 & Hxs & Hsub2 & Hrxs).
        exists (x :: xs), σ2. split; [|split].
        + cbn. unfold mbind at 1, Store.M_bind. rewrite Hx.
          unfold mbind, Store.M_bind. fold load_items. by rewrite Hxs.
        + by etrans.
        + constructor; [by eapply repr_mono | done]. }
    destruct Hitems as (xs & σ1 & Hxs & Hsub & Hrxs).
    set (l := fresh (dom σ1)).
    assert (Hl : σ1 !! l = None) by apply not_elem_of_dom, is_fresh.
    exists (Store.SRef l), (<[l := Store.OList xs]> σ1). split; [|split].
    + unfold mbind, Store.M_bind. by rewrite Hxs.
    + etrans; [exact Hsub | by apply insert_subseteq].
    + eapply Store.repr_List; [apply lookup_insert_eq|].
      eapply Forall2_impl; [exact Hrxs|].
      intros x v. by apply repr_mono, insert_subseteq.
  - cbn [Store.load].
    match goal with |- context [mbind _ (?F vd)] => set (load_entries := F) end.
    assert (Hentries : ∃ d σ', load_entries vd σ = (Store.Returned d, σ') ∧
                         σ ⊆ σ' ∧ entries_repr σ' d vd).
    { revert σ. induction vd as [|[k v] vd IHvd]; intros σ.
      - exists [], σ. repeat split; [done | constructor].
      - destruct (IH v σ) as (x & σ1 & Hx & Hsub1 & Hrx).
        destruct (IHvd σ1) as (d & σ2 & Hd & Hsub2 & Hrd).
        exists ((k, x) :: d), σ2. split; [|split].
        + cbn. unfold mbind at 1, Store.M_bind. rewrite Hx.
          unfold mbind, Store.M_bind. fold load_entries. by rewrite Hd.
        + by etrans.
        + constructor; [|done]. split; [done | by eapply repr_mono]. }
    destruct Hentries as (d & σ1 & Hd & Hsub & Hrd).
    set (l := fresh (dom σ1)).
    assert (Hl : σ1 !! l = None) by apply not_elem_of_dom, is_fresh.
    exists (Store.SRef l), (<[l := Store.ODict d]> σ1). split; [|split].
    + unfold mbind, Store.M_bind. by rewrite Hd.
    + etrans; [exact Hsub | by apply insert_subseteq].
    + eapply Store.repr_Dict; [apply lookup_insert_eq|].
      eapply Forall2_impl; [exact Hrd|].
      intros [k x] [k' v] [Hk Hx]. split; [done|].
      by eapply repr_mono; [apply insert_subseteq|].
Qed.

(** ** The store model computes what the tree model computes *)

Section Refinement.
Context (σ0 : Store.store).

Lemma sim_ret {A B} (R : Store.store → A → B → Prop) σ a b :
  R σ a b → sim R σ (mret a) (Ok b).
Proof. intros HR. by exists a, σ. Qed.

Lemma sim_bind {A B A' B'} (R : Store.store → A → B → Prop)
    (R' : Store.store → A' → B' → Prop) σ m r f g :
  sim R σ m r →
  (∀ σ' a b, R σ' a b → sim R' σ' (f a) (g b)) →
  sim R' σ (m ≫= f) (r ≫= g).
Proof.
  intros Hm Hf. destruct r as [b|e]; cbn in *.
  - destruct Hm as (a & σ' & Hrun & HR).
    specialize (Hf σ' a b HR). unfold sim in *.
    destruct (g b) as [b'|e'];
      unfold mbind at 1, Store.M_bind; by rewrite Hrun.
  - destruct Hm as (σ' & Hrun). exists σ'.
    unfold mbind, Store.M_bind. by rewrite Hrun.
Qed.

Lemma sim_weaken {A B} (R R' : Store.store → A → B → Prop) σ m r :
  sim R σ m r → (∀ σ' a b, R σ' a b → R' σ' a b) → sim R' σ m r.
Proof.
  intros Hm HR. destruct r as [b|e]; [|done].
  destruct Hm as (a & σ' & Hrun & H). exists a, σ'. auto.
Qed.

Lemma deref_bind {A} σ l o (f : Store.obj → Store.M A) :
  σ !! l = Some o → (Store.deref l ≫= f) σ = f o σ.
Proof.
  intros Hl. unfold mbind, Store.M_bind, Store.deref. by rewrite Hl.
Qed.

Lemma entries_repr_get d vd key :
  entries_repr σ0 d vd →
  option_Forall2 (Store.repr σ0) (dict_get key d) (dict_get key vd).
Proof.
  induction 1 as [|[k x] [k' v] d vd [Hk Hx] _ IH]; cbn in *.
  - constructor.
  - subst k'. destruct (String.eqb key k); [by constructor | exact IH].
Qed.

Lemma entries_repr_keys d vd :
  entries_repr σ0 d vd → dict_keys d = dict_keys vd.
Proof.
  unfold dict_keys.
  induction 1 as [|[k x] [k' v] d vd [Hk Hx] _ IH]; cbn in *; [done|].
  by f_equal.
Qed.

Lemma eq_str_repr key x v :
  Store.repr σ0 x v → Store.eq_str key x = Py.eq_str key v.
Proof. by destruct 1. Qed.

Lemma existsb_eq_str_repr key items vs :
  Forall2 (Store.repr σ0) items vs →
  existsb (Store.eq_str key) items = existsb (Py.eq_str key) vs.
Proof.
  induction 1 as [|x v items vs Hx _ IH]; cbn; [done|].
  by rewrite (eq_str_repr _ _ _ Hx), IH.
Qed.

Section Reads.
Context (σ : Store.store) (Hσ : σ0 ⊆ σ).

Lemma py_in_reads key x v :
  Store.repr σ0 x v → reads eq σ (Store.py_in key x) (Py.py_in key v).
Proof.
  destruct 1 as [| | | | | l items vs Hl Hitems | l d vd Hl Hd];
    try (by eexists _); try (by eexists _, _).
  - unfold reads, sim. cbn [Py.py_in]. eexists _, _. split; [|done].
    unfold Store.py_in. rewrite (deref_bind _ _ _ _ (lookup_weaken _ _ _ _ Hl Hσ)).
    by rewrite (existsb_eq_str_repr _ _ _ Hitems).
  - unfold reads, sim. cbn [Py.py_in]. eexists _, _. split; [|done].
    unfold Store.py_in. rewrite (deref_bind _ _ _ _ (lookup_weaken _ _ _ _ Hl Hσ)).
    f_equal. f_equal.
    destruct (entries_repr_get d vd key Hd) as [x v Hx|].
    + by rewrite !bool_decide_eq_true_2.
    + by rewrite !bool_decide_eq_false_2; [| intros [? ?]..].
Qed.

Lemma py_contains_reads key x v :
  Store.repr σ0 x v →
  reads eq σ (Store.py_contains x key) (Py.py_contains v key).
Proof.
  intros Hx. pose proof (py_in_reads key x v Hx) as Hin.
  destruct Hx; try exact Hin; by eexists _.
Qed.

Lemma py_getitem_reads key x v :
  Store.repr σ0 x v →
  reads (Store.repr σ0) σ (Store.py_getitem x key) (Py.py_getitem v key).
Proof.
  destruct 1 as [| | | | | l items vs Hl Hitems | l d vd Hl Hd];
    try (by eexists _).
  - exists σ. unfold Store.py_getitem.
    by rewrite (deref_bind _ _ _ _ (lookup_weaken _ _ _ _ Hl Hσ)).
  - unfold reads, sim, Py.py_getitem, Store.py_getitem.
    rewrite (deref_bind _ _ _ _ (lookup_weaken _ _ _ _ Hl Hσ)).
    destruct (entries_repr_get d vd key Hd) as [x v Hx|].
    + by eexists _, _.
    + by eexists _.
Qed.

Lemma py_get_reads key x v :
  Store.repr σ0 x v →
  reads (Store.repr σ0) σ (Store.py_get x key) (Py.py_get v key).
Proof.
  destruct 1 as [| | | | | l items vs Hl Hitems | l d vd Hl Hd];
    try (by eexists _).
  - exists σ. unfold Store.py_get.
    by rewrite (deref_bind _ _ _ _ (lookup_weaken _ _ _ _ Hl Hσ)).
  - unfold reads, sim, Py.py_get, Store.py_get.
    rewrite (deref_bind _ _ _ _ (lookup_weaken _ _ _ _ Hl Hσ)).
    eexists _, _. split; [done|]. split; [done|].
    destruct (entries_repr_get d vd key Hd) as [x v Hx|]; [done|constructor].
Qed.

Lemma py_iter_reads x v :
  Store.repr σ0 x v →
  reads (Forall2 (Store.repr σ0)) σ (Store.py_iter x) (Py.py_iter v).
Proof.
  destruct 1 as [| | | | s | l items vs Hl Hitems | l d vd Hl Hd];
    try (by eexists _).
  - eexists _, _. split; [done|]. split; [done|].
    induction (chars s); constructor; [constructor | done].
  - unfold reads, sim, Py.py_iter, Store.py_iter.
    rewrite (deref_bind _ _ _ _ (lookup_weaken _ _ _ _ Hl Hσ)).
    by eexists _, _.
  - unfold reads, sim, Py.py_iter, Store.py_iter.
    rewrite (deref_bind _ _ _ _ (lookup_weaken _ _ _ _ Hl Hσ)).
    eexists _, _. split; [done|]. split; [done|].
    rewrite (entries_repr_keys _ _ Hd).
    induction (dict_keys vd); constructor; [constructor | done].
Qed.

Lemma walk_reads keys x v dflt vdflt :
  Store.repr σ0 x v → Store.repr σ0 dflt vdflt →
  reads (Store.repr σ0) σ (Store.walk keys x dflt) (Py.walk keys v vdflt).
Proof.
  intros Hx Hd. revert x v Hx.
  induction keys as [|key keys IH]; intros x v Hx.
  - by apply sim_ret.
  - cbn [Store.walk Py.walk].
    eapply sim_bind; [by apply py_in_reads|].
    intros σ' b b' [-> <-]. destruct b.
    + eapply sim_bind; [by apply py_getitem_reads|].
      intros σ' x' v' [-> Hx']. by apply IH.
    + by apply sim_ret.
Qed.

Lemma extract_nested_value_reads path x v dflt vdflt :
  Store.repr σ0 x v → Store.repr σ0 dflt vdflt →
  reads (Store.repr σ0) σ (Store.extract_nested_value x path dflt)
        (Py.extract_nested_value v path vdflt).
Proof. apply walk_reads. Qed.

Lemma get_or_nan_reads key x v :
  Store.repr σ0 x v →
  reads (Store.repr σ0) σ (Store.get_or_nan x key) (Py.get_or_nan v key).
Proof.
  intros Hx. unfold Store.get_or_nan, Py.get_or_nan.
  eapply sim_bind; [by apply py_in_reads|].
  intros σ' b b' [-> <-]. destruct b.
  - by apply py_get_reads.
  - apply sim_ret. split; [done | constructor].
Qed.

(** *** The dict displays *)

Lemma alloc_sim d row :
  entries_repr σ0 d row →
  sim (allocated σ0 σ) σ (Store.alloc (Store.ODict d)) (Ok row).
Proof.
  intros Hd. eexists _, _. split; [done|]. exists d.
  split; [apply not_elem_of_dom, is_fresh | done].
Qed.

Ltac sim_reads :=
  repeat (eapply sim_bind;
          [ first [ by apply py_get_reads
                  | by apply get_or_nan_reads
                  | apply extract_nested_value_reads; [done | constructor] ]
          | intros ? ? ? [-> ?] ]).

Lemma laureate_row_sim x v :
  Store.repr σ0 x v →
  sim (allocated σ0 σ) σ (Store.laureate_row x) (Py.laureate_row v).
Proof.
  intros Hx. unfold Store.laureate_row, Py.laureate_row. sim_reads.
  apply alloc_sim. by repeat constructor.
Qed.

Lemma prize_row_sim x v :
  Store.repr σ0 x v →
  sim (allocated σ0 σ) σ (Store.prize_row x) (Py.prize_row v).
Proof.
  intros Hx. unfold Store.prize_row, Py.prize_row. sim_reads.
  apply alloc_sim. by repeat constructor.
Qed.

Lemma laureate_fields_sim x v :
  Store.repr σ0 x v →
  sim (allocated σ0 σ) σ (Store.laureate_fields x) (Py.laureate_fields v).
Proof.
  intros Hx. unfold Store.laureate_fields, Py.laureate_fields. sim_reads.
  apply alloc_sim. by repeat constructor.
Qed.

End Reads.

(** *** The loops *)

Section Loops.
Context (rows : Store.loc) (Hrows : fresh_for σ0 rows).

Lemma row_repr_insert σ l o r row :
  σ !! l = None → row_repr σ0 σ r row → row_repr σ0 (<[l := o]> σ) r row.
Proof.
  intros Hl (l' & d & -> & Hl' & Hd). exists l', d. split; [done|].
  split; [|done]. rewrite lookup_insert_ne; [done | congruence].
Qed.

(** A new object does not disturb the rows built so far. *)
Lemma rows_inv_alloc σ built l o :
  σ !! l = None →
  rows_inv σ0 rows σ built → rows_inv σ0 rows (<[l := o]> σ) built.
Proof.
  intros Hl (Hσ & rs & Hrs & Hbuilt). split.
  - apply insert_subseteq_r; [|done].
    by eapply lookup_weaken_None.
  - exists rs. split; [rewrite lookup_insert_ne; [done | congruence]|].
    eapply Forall2_impl; [exact Hbuilt|].
    intros r row. by apply row_repr_insert.
Qed.

Lemma rows_inv_append σ built l d row :
  rows_inv σ0 rows σ built →
  σ !! l = Some (Store.ODict d) →
  entries_repr σ0 d row →
  sim (λ σ' _ built', rows_inv σ0 rows σ' built') σ
      (Store.list_append rows (Store.SRef l)) (Ok (built ++ [row])).
Proof.
  intros (Hσ & rs & Hrs & Hbuilt) Hl Hd.
  exists (), (<[rows := Store.OList (rs ++ [Store.SRef l])]> σ). split.
  { unfold Store.list_append. by rewrite (deref_bind _ _ _ _ Hrs). }
  split; [by apply insert_subseteq_r|].
  exists (rs ++ [Store.SRef l]). split; [by rewrite lookup_insert_eq|].
  assert (Hkeep : ∀ r row', row_repr σ0 σ r row' →
            row_repr σ0 (<[rows := Store.OList (rs ++ [Store.SRef l])]> σ) r row').
  { intros r row' (l' & d' & -> & Hl' & Hd'). exists l', d'.
    split; [done|]. split; [|done].
    rewrite lookup_insert_ne; [done | congruence]. }
  apply Forall2_app.
  - eapply Forall2_impl; [exact Hbuilt | exact Hkeep].
  - constructor; [|constructor]. apply Hkeep. by exists l, d.
Qed.

Lemma for_each_sim {A B} (Rel : A → B → Prop)
    (Inv : Store.store → list pydict → Prop) body body' items items' :
  (∀ σ x y built, Rel x y → Inv σ built →
     sim (λ σ' _ built', Inv σ' built') σ (body x) (body' y built)) →
  Forall2 Rel items items' →
  ∀ σ built, Inv σ built →
    sim (λ σ' _ built', Inv σ' built') σ
        (Store.for_each items body) (Py.for_each items' body' built).
Proof.
  intros Hbody. induction 1 as [|x y items items' Hxy _ IH]; intros σ built HI.
  - by apply sim_ret.
  - cbn [Store.for_each Py.for_each].
    eapply sim_bind; [by apply Hbody|].
    intros σ' [] built' HI'. by apply IH.
Qed.

Lemma laureate_body_sim σ x v built :
  Store.repr σ0 x v →
  rows_inv σ0 rows σ built →
  sim (λ σ' _ built', rows_inv σ0 rows σ' built') σ
      (Store.laureate_body rows x) (Py.laureate_body v built).
Proof.
  intros Hx HI. unfold Store.laureate_body, Py.laureate_body.
  eapply sim_bind; [apply laureate_row_sim; [apply HI | done]|].
  intros σ' l row (d & Hl & -> & Hd).
  eapply rows_inv_append; [by apply rows_inv_alloc | | done].
  by rewrite lookup_insert_eq.
Qed.

Lemma dict_set_repr k x v d vd :
  Store.repr σ0 x v → entries_repr σ0 d vd →
  entries_repr σ0 (dict_set k x d) (dict_set k v vd).
Proof.
  intros Hx. induction 1 as [|[k1 x1] [k2 v2] d vd [Hk H1] Hd IH]; cbn in *.
  - by repeat constructor.
  - subst k2. destruct (String.eqb k k1); constructor; done.
Qed.

Lemma dict_update_repr d vd f vf :
  entries_repr σ0 d vd → entries_repr σ0 f vf →
  entries_repr σ0 (dict_update d f) (dict_update vd vf).
Proof.
  intros Hd Hf. revert d vd Hd. unfold dict_update.
  induction Hf as [|[k x] [k' v] f vf [Hk Hx] _ IH]; intros d vd Hd; [done|].
  cbn in *. subst k'. by apply IH, dict_set_repr.
Qed.

Lemma prize_laureate_body_sim σ row d base x v built :
  entries_repr σ0 d base →
  Store.repr σ0 x v →
  prize_inv σ0 rows row d σ built →
  sim (λ σ' _ built', prize_inv σ0 rows row d σ' built') σ
      (Store.prize_laureate_body rows row x)
      (Py.prize_laureate_body base v built).
Proof.
  intros Hd Hx [HI Hrow].
  unfold Store.prize_laureate_body, Py.prize_laureate_body.
  set (l1 := fresh (dom σ)).
  assert (Hl1 : σ !! l1 = None) by apply not_elem_of_dom, is_fresh.
  set (σ1 := <[l1 := Store.ODict d]> σ).
  assert (Hcopy : Store.dict_copy row σ = (Store.Returned l1, σ1)).
  { unfold Store.dict_copy. by rewrite (deref_bind _ _ _ _ Hrow). }
  assert (HI1 : rows_inv σ0 rows σ1 built) by by apply rows_inv_alloc.
  pose proof (laureate_fields_sim σ1 (proj1 HI1) x v Hx) as Hfields.
  destruct (Py.laureate_fields v) as [fields|e]; cbn in Hfields |- *.
  - destruct Hfields as (l2 & σ2 & Hrun & f & Hl2 & -> & Hf).
    assert (Hne : l1 ≠ l2).
    { intros <-. unfold σ1 in Hl2. by rewrite lookup_insert_eq in Hl2. }
    set (new := Store.ODict (dict_update d f)).
    assert (Hupd : Store.dict_update_in_place l1 l2
                     (<[l2 := Store.ODict f]> σ1)
                   = (Store.Returned (), <[l2 := Store.ODict f]> (<[l1 := new]> σ))).
    { unfold Store.dict_update_in_place.
      rewrite (deref_bind _ l1 (Store.ODict d)).
      2:{ rewrite lookup_insert_ne; [|done]. apply lookup_insert_eq. }
      rewrite (deref_bind _ l2 (Store.ODict f)); [|apply lookup_insert_eq].
      unfold Store.assign, σ1. f_equal.
      rewrite (insert_insert_ne _ l2 l1); [|done].
      rewrite insert_insert_eq. by apply insert_insert_ne. }
    assert (Hl2' : (<[l1 := new]> σ) !! l2 = None).
    { rewrite lookup_insert_ne; [|done].
      unfold σ1 in Hl2. by rewrite lookup_insert_ne in Hl2. }
    assert (HI2 : rows_inv σ0 rows
                    (<[l2 := Store.ODict f]> (<[l1 := new]> σ)) built).
    { apply rows_inv_alloc; [done|]. by apply rows_inv_alloc. }
    assert (Hnew : (<[l2 := Store.ODict f]> (<[l1 := new]> σ)) !! l1
                   = Some new).
    { rewrite lookup_insert_ne; [|done]. apply lookup_insert_eq. }
    destruct (rows_inv_append _ _ _ _ (dict_update base fields) HI2 Hnew)
      as (u & σ3 & Happ & HI3); [by apply dict_update_repr|].
    exists u, σ3. split.
    + unfold mbind, Store.M_bind. rewrite Hcopy, Hrun, Hupd. exact Happ.
    + split; [done|].
      (* the base row is still there *)
      unfold Store.list_append in Happ.
      destruct HI2 as (_ & rs & Hrs & _).
      rewrite (deref_bind _ _ _ _ Hrs) in Happ. injection Happ as _ <-.
      assert (row ≠ l1) by congruence.
      assert (row ≠ l2).
      { intros ->. rewrite lookup_insert_ne in Hl2'; congruence. }
      assert (row ≠ rows).
      { destruct HI as (_ & rs0 & Hrs0 & _). congruence. }
      by rewrite !lookup_insert_ne.
  - destruct Hfields as (σ2 & Hrun). exists σ2.
    unfold mbind, Store.M_bind. by rewrite Hcopy, Hrun.
Qed.

Lemma prize_body_sim σ x v built :
  Store.repr σ0 x v →
  rows_inv σ0 rows σ built →
  sim (λ σ' _ built', rows_inv σ0 rows σ' built') σ
      (Store.prize_body rows x) (Py.prize_body v built).
Proof.
  intros Hx HI. unfold Store.prize_body, Py.prize_body.
  eapply sim_bind; [apply prize_row_sim; [apply HI | done]|].
  intros σ' l base (d & Hl & -> & Hd).
  assert (HI1 : rows_inv σ0 rows (<[l := Store.ODict d]> σ) built)
    by by apply rows_inv_alloc.
  eapply sim_bind; [apply py_contains_reads; [apply HI1 | done]|].
  intros σ' b b' [-> <-]. destruct b.
  - eapply sim_bind; [apply py_get_reads; [apply HI1 | done]|].
    intros σ' ls vls [-> Hls].
    eapply sim_bind; [apply py_iter_reads; [apply HI1 | done]|].
    intros σ' items vitems [-> Hitems].
    eapply sim_weaken.
    + apply (for_each_sim (Store.repr σ0) (prize_inv σ0 rows l d));
        [| done | split; [done | apply lookup_insert_eq]].
      intros σ' y w built' Hy HI'. by eapply prize_laureate_body_sim.
    + by intros σ' [] built' [HI' _].
  - eapply rows_inv_append; [done | apply lookup_insert_eq | done].
Qed.

(** *** The frame *)

Lemma read_rows_inv σ rs built :
  Forall2 (row_repr σ0 σ) rs built →
  ∃ ds, Store.read_rows rs σ = (Store.Returned ds, σ) ∧
        Forall2 (entries_repr σ0) ds built.
Proof.
  induction 1 as [|r row rs built (l & d & -> & Hl & Hd) _ (ds & Hds & IH)].
  - by exists [].
  - exists (d :: ds). split; [|by constructor].
    cbn [Store.read_rows Store.read_row].
    unfold mbind at 1, Store.M_bind.
    rewrite (deref_bind _ _ _ _ Hl). cbn.
    unfold mbind, Store.M_bind. by rewrite Hds.
Qed.

Lemma add_columns_repr cols d row :
  entries_repr σ0 d row → add_columns cols d = add_columns cols row.
Proof. intros Hd. unfold add_columns. by rewrite (entries_repr_keys _ _ Hd). Qed.

Lemma union_keys_repr ds built :
  Forall2 (entries_repr σ0) ds built → union_keys ds = union_keys built.
Proof.
  unfold union_keys. generalize (@nil string).
  intros cols H. revert cols.
  induction H as [|d row ds built Hd _ IH]; intros cols; [done|].
  cbn. by rewrite (add_columns_repr _ _ _ Hd).
Qed.

Lemma fill_repr d row c :
  entries_repr σ0 d row →
  Store.repr σ0 (fill Store.np_nan d c) (fill np_nan row c).
Proof.
  intros Hd. unfold fill.
  destruct (entries_repr_get d row c Hd); [done | constructor].
Qed.

Lemma frame_of_records_repr ds built :
  Forall2 (entries_repr σ0) ds built →
  frame_repr σ0 (frame_of_records Store.np_nan ds)
             (frame_of_records np_nan built).
Proof.
  intros H. split; cbn; [by apply union_keys_repr|].
  rewrite (union_keys_repr _ _ H). generalize (union_keys built). intros cols.
  induction H as [|d row ds built Hd _ IH]; constructor; [|exact IH].
  clear IH.
  induction cols as [|c cols IHc]; cbn; constructor;
    [by apply fill_repr | done].
Qed.

Lemma pd_DataFrame_sim σ built :
  rows_inv σ0 rows σ built →
  reads (frame_repr σ0) σ (Store.pd_DataFrame rows)
        (Ok (frame_of_records np_nan built)).
Proof.
  intros (Hσ & rs & Hrs & Hbuilt).
  destruct (read_rows_inv _ _ _ Hbuilt) as (ds & Hds & Hrepr).
  eexists _, σ. split.
  - unfold Store.pd_DataFrame. rewrite (deref_bind _ _ _ _ Hrs).
    unfold mbind, Store.M_bind. by rewrite Hds.
  - split; [done|]. by apply frame_of_records_repr.
Qed.

(** The [if] statement of [normalize_to_dataframe]. *)
Lemma normalize_rows_sim σ x v :
  Store.repr σ0 x v →
  rows_inv σ0 rows σ [] →
  sim (λ σ' _ built, rows_inv σ0 rows σ' built) σ
    (is_laureates ← Store.py_contains x "laureates";
     if is_laureates : bool then
       json_data ← Store.py_get x "laureates";
       items ← Store.py_iter json_data;
       Store.for_each items (Store.laureate_body rows)
     else
       is_prizes ← Store.py_contains x "nobelPrizes";
       if is_prizes : bool then
         json_data ← Store.py_get x "nobelPrizes";
         items ← Store.py_iter json_data;
         Store.for_each items (Store.prize_body rows)
       else mret ())
    (Py.normalize_rows v).
Proof.
  intros Hx HI. unfold Py.normalize_rows.
  eapply sim_bind; [apply py_contains_reads; [apply HI | done]|].
  intros σ' b b' [-> <-]. destruct b.
  - eapply sim_bind; [apply py_get_reads; [apply HI | done]|].
    intros σ' ls vls [-> Hls].
    eapply sim_bind; [apply py_iter_reads; [apply HI | done]|].
    intros σ' items vitems [-> Hitems].
    apply (for_each_sim (Store.repr σ0) (rows_inv σ0 rows)); [|done..].
    intros σ' y w built Hy HI'. by apply laureate_body_sim.
  - eapply sim_bind; [apply py_contains_reads; [apply HI | done]|].
    intros σ' b b' [-> <-]. destruct b.
    + eapply sim_bind; [apply py_get_reads; [apply HI | done]|].
      intros σ' ls vls [-> Hls].
      eapply sim_bind; [apply py_iter_reads; [apply HI | done]|].
      intros σ' items vitems [-> Hitems].
      apply (for_each_sim (Store.repr σ0) (rows_inv σ0 rows)); [|done..].
      intros σ' y w built Hy HI'. by apply prize_body_sim.
    + by apply sim_ret.
Qed.

End Loops.

(** X17. The result of normalize depends on the tree the input stands
    for, not on how its objects are laid out or shared in the store: run
    on a reference that stands for the tree [v], the store model ends
    with the exception the tree model ends with, or returns a frame with
    the same columns whose cells stand for the cells of the tree model's
    frame, leaving the input objects in place. *)
Lemma normalize_to_dataframe_sim x v :
  Store.repr σ0 x v →
  sim (λ σ' sdf df, σ0 ⊆ σ' ∧ frame_repr σ0 sdf df) σ0
      (Store.normalize_to_dataframe x) (Py.normalize_to_dataframe v).
Proof.
  intros Hx.
  set (rows := fresh (dom σ0)).
  assert (Hrows : fresh_for σ0 rows) by apply not_elem_of_dom, is_fresh.
  set (σ1 := <[rows := Store.OList []]> σ0).
  assert (HI : rows_inv σ0 rows σ1 []).
  { split; [by apply insert_subseteq|].
    exists []. split; [apply lookup_insert_eq | constructor]. }
  pose proof (normalize_rows_sim rows Hrows σ1 x v Hx HI) as Hstmt.
  unfold Py.normalize_to_dataframe.
  assert (Hrun : ∀ r,
    sim (λ σ' sdf df, σ0 ⊆ σ' ∧ frame_repr σ0 sdf df) σ1
        ((is_laureates ← Store.py_contains x "laureates";
          if is_laureates : bool then
            json_data ← Store.py_get x "laureates";
            items ← Store.py_iter json_data;
            Store.for_each items (Store.laureate_body rows)
          else
            is_prizes ← Store.py_contains x "nobelPrizes";
            if is_prizes : bool then
              json_data ← Store.py_get x "nobelPrizes";
              items ← Store.py_iter json_data;
              Store.for_each items (Store.prize_body rows)
            else mret ());; Store.pd_DataFrame rows) r →
    sim (λ σ' sdf df, σ0 ⊆ σ' ∧ frame_repr σ0 sdf df) σ0
        (Store.normalize_to_dataframe x) r).
  { intros [df|e] H; exact H. }
  apply Hrun.
  eapply sim_bind; [exact Hstmt|].
  intros σ' [] built HI'.
  eapply sim_weaken; [by apply pd_DataFrame_sim|].
  intros σ'' sdf df [-> Hdf]. split; [apply HI' | done].
Qed.

End Refinement.

(** ** The properties of the two functions *)

Section Properties.
Import Py.

(** C1. The path resolver is to return the default, without raising,
    whenever the structure reached is not a mapping, [None] included. It
    does not: on the record [{"a": None}] and the path "a.b" the test
    ['b' in None] raises TypeError, whatever the default. *)
Theorem extract_nested_value_into_None_raises (dflt : value) :
  extract_nested_value (VDict [("a", VNone)]) "a.b" dflt = Raise TypeError.
Proof. reflexivity. Qed.

(** C6. When every segment of the path is a key of the mapping reached so
    far, the resolver returns the value stored under the last segment, as
    it is stored. *)
Theorem extract_nested_value_resolved (r : value) (path : string) (v dflt : value) :
  resolves r (split_on "." path) v →
  extract_nested_value r path dflt = Ok v.
Proof. apply walk_resolves. Qed.

Lemma extract_nested_value_resolved_witness :
  resolves marie_curie (split_on "." "birth.place.city.en") (VStr "Warsaw")
  ∧ extract_nested_value marie_curie "birth.place.city.en" np_nan
    = Ok (VStr "Warsaw").
Proof.
  assert (H : resolves marie_curie (split_on "." "birth.place.city.en")
                (VStr "Warsaw")).
  { repeat (eapply resolves_step; [reflexivity|]). apply resolves_end. }
  split; [exact H | exact (extract_nested_value_resolved _ _ _ np_nan H)].
Defined.

(** C8. A mapping with neither the 'laureates' nor the 'nobelPrizes' key
    gives the empty frame, and no exception. *)
Theorem normalize_unrecognized_shape (d : pydict) :
  dict_get "laureates" d = None →
  dict_get "nobelPrizes" d = None →
  normalize_to_dataframe (VDict d) = Ok {| columns := []; data := [] |}.
Proof.
  intros Hl Hp. unfold normalize_to_dataframe, normalize_rows. cbn.
  rewrite Hl, Hp. by rewrite bool_decide_eq_false_2; [|intros [? ?]].
Qed.

Lemma normalize_unrecognized_shape_witness :
  normalize_to_dataframe (VDict []) = Ok {| columns := []; data := [] |}
  ∧ normalize_to_dataframe (VDict [("meta", VDict [("count", VInt 1004)])])
    = Ok {| columns := []; data := [] |}.
Proof.
  split.
  - apply (normalize_unrecognized_shape []); reflexivity.
  - apply (normalize_unrecognized_shape [("meta", VDict [("count", VInt 1004)])]);
      reflexivity.
Defined.



(** C7. A laureate collection of K records is to give K rows. It does
    not when a field of one record leads the resolver out of the
    mappings: on two records, the second with [None] under 'birth', the
    call raises TypeError and no row is returned, not even that of the
    first record. *)
Theorem normalize_laureate_collection_raises :
  (∃ df, normalize_to_dataframe (VDict [("laureates", VList [marie_curie])])
         = Ok df ∧ length (data df) = 1)
  ∧ normalize_to_dataframe
      (VDict [("laureates",
               VList [marie_curie; VDict [("id", VStr "2"); ("birth", VNone)]])])
    = Raise TypeError.
Proof. split; [by eexists | reflexivity]. Qed.

(** Where the records are mappings whose fields stay inside mappings the
    call returns; and whenever it returns, there is one row dict per
    record, that of the record, in input order, and the frame has one row
    per row dict, each with the nine laureate columns. *)
Lemma normalize_laureate_collection (d : pydict) (recs : list value) :
  dict_get "laureates" d = Some (VList recs) →
  (forallb laureate_wf recs = true →
   returns (normalize_to_dataframe (VDict d))) ∧
  (∀ df, normalize_to_dataframe (VDict d) = Ok df →
         length (data df) = length recs ∧
         Forall (λ row, dict_keys row = laureate_columns) (records df) ∧
         ∃ rows, normalize_rows (VDict d) = Ok rows ∧
                 Forall2 (λ rec row, laureate_row rec = Ok row) recs rows).
Proof.
  intros Hl. unfold normalize_to_dataframe.
  rewrite (normalize_rows_laureates d _ Hl). cbn [py_iter mbind result_bind].
  split.
  - intros Hwf.
    destruct (for_each_laureate_body_wf recs [] Hwf) as [out ->]. by eexists.
  - intros df H. inv_bind H as out Hout. injection H as <-.
    destruct (for_each_laureate_body_inv _ _ _ Hout) as (rows & -> & Hrows).
    assert (Hkeys : Forall (λ row, dict_keys row = laureate_columns) rows).
    { clear -Hrows. induction Hrows as [|rec row recs rows Hrow _ IH];
        constructor; [by eapply laureate_row_keys | done]. }
    cbn [app] in *. split; [|split].
    + cbn. rewrite length_map. symmetry. by eapply Forall2_length.
    + by rewrite (records_uniform np_nan _ _ laureate_columns_NoDup Hkeys).
    + by exists rows.
Qed.

(** The laureate record of the specification's example. *)
Example marie_curie_row :
  laureate_row marie_curie =
    Ok [("laureate_id", VStr "1");
        ("known_name", VStr "Marie Curie");
        ("gender", np_nan);
        ("birth_date", VStr "1867-11-07");
        ("born_city", VStr "Warsaw");
        ("born_country", np_nan);
        ("born_country_now", np_nan);
        ("continent", np_nan);
        ("death_date", np_nan)].
Proof. reflexivity. Qed.

(** C5. The normalizer is to absorb malformed nested fields. It does not:
    a laureate record whose 'birth' is [None] makes the resolver raise
    TypeError on ['date' in None], and the call ends with it. *)
Theorem normalize_None_field_raises :
  normalize_to_dataframe
    (VDict [("laureates", VList [VDict [("id", VStr "1"); ("birth", VNone)]])])
  = Raise TypeError.
Proof. reflexivity. Qed.

(** C3. A missing field is to become NaN in every column. For the
    laureate identifier it does not: [laureate.get('id')] has no guard,
    and for a record without 'id' the row holds [None], while the guarded
    'gender' next to it holds NaN. The rows of the embedded laureates of
    a prize are built the same way. *)
Theorem normalize_missing_id_is_None :
  normalize_rows
    (VDict [("laureates", VList [VDict [("id", VStr "1")]; VDict []])])
  = Ok [[("laureate_id", VStr "1"); ("known_name", np_nan);
         ("gender", np_nan); ("birth_date", np_nan); ("born_city", np_nan);
         ("born_country", np_nan); ("born_country_now", np_nan);
         ("continent", np_nan); ("death_date", np_nan)];
        [("laureate_id", VNone); ("known_name", np_nan);
         ("gender", np_nan); ("birth_date", np_nan); ("born_city", np_nan);
         ("born_country", np_nan); ("born_country_now", np_nan);
         ("continent", np_nan); ("death_date", np_nan)]]
  ∧ normalize_rows
      (VDict [("nobelPrizes",
               VList [VDict [("laureates",
                              VList [VDict [("id", VStr "a")]; VDict []])]])])
    = Ok [[("year", np_nan); ("category", np_nan); ("date_awarded", np_nan);
           ("prize_amount", np_nan); ("prize_amount_adjusted", np_nan);
           ("top_motivation", np_nan); ("laureate_id", VStr "a");
           ("motivation", np_nan); ("portion", np_nan)];
          [("year", np_nan); ("category", np_nan); ("date_awarded", np_nan);
           ("prize_amount", np_nan); ("prize_amount_adjusted", np_nan);
           ("top_motivation", np_nan); ("laureate_id", VNone);
           ("motivation", np_nan); ("portion", np_nan)]]
  ∧ VNone ≠ np_nan.
Proof. repeat split; done. Qed.

(** NaN is none of the falsy values a field can hold. *)
Lemma np_nan_not_falsy :
  np_nan ≠ VInt 0 ∧ np_nan ≠ VStr "" ∧ np_nan ≠ VBool false ∧
  np_nan ≠ VFloat (Finite 0 0) ∧ np_nan ≠ VNone.
Proof. repeat split; discriminate. Qed.




(** The two-laureate example of the specification: two row dicts, in the
    order a, b, equal on the prize keys; the prize without laureates
    follows with the six base keys only. *)
Example two_laureates_rows :
  normalize_rows (VDict [("nobelPrizes", VList [prize_1903; prize_1916])])
  = Ok [[("year", VStr "1903"); ("category", VStr "Physics");
         ("date_awarded", np_nan); ("prize_amount", np_nan);
         ("prize_amount_adjusted", np_nan); ("top_motivation", np_nan);
         ("laureate_id", VStr "a"); ("motivation", np_nan);
         ("portion", VStr "1/2")];
        [("year", VStr "1903"); ("category", VStr "Physics");
         ("date_awarded", np_nan); ("prize_amount", np_nan);
         ("prize_amount_adjusted", np_nan); ("top_motivation", np_nan);
         ("laureate_id", VStr "b"); ("motivation", np_nan);
         ("portion", VStr "1/2")];
        [("year", VStr "1916"); ("category", VStr "Peace");
         ("date_awarded", np_nan); ("prize_amount", np_nan);
         ("prize_amount_adjusted", np_nan); ("top_motivation", np_nan)]].
Proof. reflexivity. Qed.

(** C4, as stated, fails: when no prize of the collection has an embedded
    laureate, the rows of the frame have the six base columns only. *)
Lemma prize_frame_without_laureate_columns :
  ∃ df, normalize_to_dataframe (VDict [("nobelPrizes", VList [prize_1916])])
        = Ok df ∧
        records df = [[("year", VStr "1916"); ("category", VStr "Peace");
                       ("date_awarded", np_nan); ("prize_amount", np_nan);
                       ("prize_amount_adjusted", np_nan);
                       ("top_motivation", np_nan)]] ∧
        columns df = prize_columns ∧
        "laureate_id" ∉ columns df.
Proof.
  eexists. split; [reflexivity|]. repeat split.
  apply (bool_decide_unpack _). by vm_compute.
Qed.

(** C4, amended. All rows of the frame normalize returns have the columns
    of the frame. In the laureates branch these are the nine laureate
    columns. In the other branch they are the six base prize columns,
    followed by the three laureate-specific columns exactly when some row
    comes from an embedded laureate. A frame without rows has no
    columns. *)
Theorem normalize_columns (json_data : value) (df : DataFrame value) :
  normalize_to_dataframe json_data = Ok df →
  Forall (λ row, dict_keys row = columns df) (records df) ∧
  ∃ rows,
    normalize_rows json_data = Ok rows ∧
    length (records df) = length rows ∧
    (py_contains json_data "laureates" = Ok true →
     columns df = match rows with [] => [] | _ :: _ => laureate_columns end) ∧
    (py_contains json_data "laureates" = Ok false →
     columns df =
       if existsb has_laureate_id rows
       then prize_columns ++ laureate_specific_columns
       else match rows with [] => [] | _ :: _ => prize_columns end).
Proof.
  unfold normalize_to_dataframe. intros H.
  inv_bind H as out Hout. injection H as <-.
  split; [apply records_keys|].
  exists out. split; [done|]. split; [apply records_length|].
  unfold normalize_rows in Hout. inv_bind Hout as is_laureates Hshape.
  split; intros Hshape'; rewrite Hshape' in Hshape; injection Hshape as <-.
  - inv_bind Hout as ls Hls. inv_bind Hout as items Hitems.
    destruct (for_each_laureate_body_inv _ _ _ Hout) as (rows & -> & Hrows).
    cbn [app]. destruct rows as [|row rows]; [done|].
    apply union_keys_uniform; [apply laureate_columns_NoDup | done |].
    clear -Hrows. induction Hrows as [|rec r recs rs Hr _ IH];
      constructor; [by eapply laureate_row_keys | done].
  - inv_bind Hout as is_prizes Hshape. destruct is_prizes.
    + inv_bind Hout as ps Hps. inv_bind Hout as items Hitems.
      destruct (for_each_prize_body_inv _ _ _ Hout) as (rows & -> & Hrows).
      by apply union_keys_prize.
    + by injection Hout as <-.
Qed.

Lemma normalize_columns_witness :
  ∃ df,
    normalize_to_dataframe
      (VDict [("nobelPrizes", VList [prize_1916; prize_1903])]) = Ok df ∧
    Forall (λ row, dict_keys row = columns df) (records df) ∧
    columns df = prize_columns ++ laureate_specific_columns.
Proof.
  eexists. split; [reflexivity|].
  destruct (normalize_columns
              (VDict [("nobelPrizes", VList [prize_1916; prize_1903])])
              _ eq_refl) as (Hkeys & rows & Hrows & _ & _ & Hcols).
  split; [exact Hkeys|]. injection Hrows as <-. exact (Hcols eq_refl).
Defined.

(** C9. Neither function changes its input. The resolver leaves the whole
    store as it found it. The normalizer writes only to the objects it
    allocates: every object of the store before the call is still there
    after it, with the same content, so a reference that stood for a
    record before the call stands for the same record after it, whether
    the call returns or raises. *)
Theorem calls_leave_input_unchanged
    (σ : Store.store) (data : Store.sval) (path : string)
    (dflt json_data : Store.sval) :
  (Store.extract_nested_value data path dflt σ).2 = σ ∧
  σ ⊆ (Store.normalize_to_dataframe json_data σ).2 ∧
  ∀ x v, Store.repr σ x v →
         Store.repr (Store.normalize_to_dataframe json_data σ).2 x v.
Proof.
  split; [apply read_only_extract_nested_value|].
  split; [apply normalize_frame|].
  intros x v. apply repr_mono, normalize_frame.
Qed.

Lemma curie_store_repr : Store.repr curie_store (Store.SRef 4%positive) curie_tree.
Proof.
  eapply Store.repr_Dict; [reflexivity|].
  repeat constructor; cbn.
  eapply Store.repr_List; [reflexivity|].
  repeat constructor.
  eapply Store.repr_Dict; [reflexivity|].
  repeat constructor; cbn.
  eapply Store.repr_Dict; [reflexivity|].
  repeat constructor.
Qed.

Lemma calls_leave_input_unchanged_witness :
  Store.repr curie_store (Store.SRef 4%positive) curie_tree ∧
  Store.repr
    (Store.normalize_to_dataframe (Store.SRef 4%positive) curie_store).2
    (Store.SRef 4%positive) curie_tree.
Proof.
  split; [exact curie_store_repr|].
  apply (calls_leave_input_unchanged curie_store (Store.SRef 4%positive) "laureates"
           Store.np_nan (Store.SRef 4%positive)).
  exact curie_store_repr.
Defined.

End Properties.


(** ** The path resolver, further *)

Section ResolverMore.
Import Py.

Lemma split_on_nonempty sep s : split_on sep s ≠ [].
Proof.
  destruct s as [|c s]; cbn; [done|].
  destruct (Ascii.eqb c sep); [done|].
  by destruct (split_on sep s).
Qed.

Lemma split_on_app sep p1 p2 :
  split_on sep (p1 ++ String sep p2) = split_on sep p1 ++ split_on sep p2.
Proof.
  induction p1 as [|c p1 IH]; simpl.
  - by rewrite Ascii.eqb_refl.
  - destruct (Ascii.eqb c sep); [by rewrite IH|].
    rewrite IH. pose proof (split_on_nonempty sep p1).
    by destruct (split_on sep p1).
Qed.

Lemma split_on_concat sep s :
  String.concat (String sep EmptyString) (split_on sep s) = s.
Proof.
  induction s as [|c s IH]; cbn; [done|].
  pose proof (split_on_nonempty sep s) as Hne.
  destruct (Ascii.eqb_spec c sep) as [->|Hc].
  - destruct (split_on sep s) as [|piece pieces]; [done|].
    cbn in *. by rewrite IH.
  - destruct (split_on sep s) as [|piece pieces]; [done|].
    destruct pieces as [|piece' pieces]; cbn in *; by rewrite <- IH.
Qed.

Lemma split_on_pieces sep s :
  Forall (λ piece, count_char sep piece = 0) (split_on sep s).
Proof.
  induction s as [|c s IH]; cbn; [by repeat constructor|].
  destruct (Ascii.eqb c sep) eqn:Hc; [by constructor|].
  destruct (split_on sep s) as [|piece pieces]; cbn.
  - repeat constructor. cbn. by rewrite Hc.
  - apply Forall_cons in IH as [Hpiece Hpieces].
    constructor; [|done]. cbn. by rewrite Hc.
Qed.

Lemma split_on_length sep s :
  length (split_on sep s) = S (count_char sep s).
Proof.
  induction s as [|c s IH]; cbn; [done|].
  destruct (Ascii.eqb c sep); cbn; [by rewrite IH|].
  pose proof (split_on_nonempty sep s).
  by destruct (split_on sep s).
Qed.

Lemma split_on_no_sep sep s :
  count_char sep s = 0 → split_on sep s = [s].
Proof.
  induction s as [|c s IH]; cbn; [done|].
  destruct (Ascii.eqb c sep); [done|]. intros Hs. by rewrite (IH Hs).
Qed.

Lemma lookup_path_resolves keys r v :
  lookup_path keys r = Some v ↔ resolves r keys v.
Proof.
  split.
  - revert r. induction keys as [|key keys IH]; intros r H; cbn in H.
    + injection H as ->. constructor.
    + destruct r as [| | | | | |d]; try discriminate H.
      destruct (dict_get key d) as [child|] eqn:Hget; [|discriminate H].
      econstructor; [exact Hget | by apply IH].
  - induction 1 as [v | d key keys child v Hget _ IH]; cbn; [done|].
    by rewrite Hget.
Qed.

Lemma walk_lookup_path keys r dflt :
  path_safe keys r = true →
  walk keys r dflt = Ok (default dflt (lookup_path keys r)).
Proof.
  revert r. induction keys as [|key keys IH]; intros r Hsafe; [done|].
  destruct r as [| | | | | |d]; try discriminate Hsafe.
  cbn in Hsafe. cbn [lookup_path].
  destruct (dict_get key d) as [child|] eqn:Hget.
  - rewrite (walk_dict_present _ _ _ _ _ Hget). by apply IH.
  - by rewrite (walk_dict_absent _ _ _ _ Hget).
Qed.

Lemma walk_app_resolves keys1 keys2 r x dflt :
  resolves r keys1 x →
  walk (keys1 ++ keys2) r dflt = walk keys2 x dflt.
Proof.
  induction 1 as [v | d key keys child v Hget _ IH]; [done|].
  cbn [app]. by rewrite (walk_dict_present _ _ _ _ _ Hget).
Qed.

(** X1. On a record in which every structure the path looks into is a
    mapping, the resolver never raises: it returns the value the path
    leads to, or the default when some segment is absent. *)
Theorem extract_nested_value_on_mappings (r : value) (path : string) (dflt : value) :
  path_safe (split_on "." path) r = true →
  extract_nested_value r path dflt
  = Ok (default dflt (lookup_path (split_on "." path) r)).
Proof. apply walk_lookup_path. Qed.

Lemma extract_nested_value_on_mappings_witness :
  extract_nested_value marie_curie "birth.place.city.en" np_nan
  = Ok (VStr "Warsaw")
  ∧ extract_nested_value marie_curie "birth.place.country.en" np_nan
    = Ok np_nan.
Proof.
  split.
  - apply (extract_nested_value_on_mappings marie_curie "birth.place.city.en").
    reflexivity.
  - apply (extract_nested_value_on_mappings marie_curie "birth.place.country.en").
    reflexivity.
Defined.

(** X2. Started on a value that is not a mapping, the resolver looks at
    the first segment only. On a string it raises TypeError when the
    segment is a substring and returns the default otherwise; on a list
    it raises TypeError when the segment is an element and returns the
    default otherwise; on [None], a number or a boolean it raises
    TypeError. *)
Theorem extract_nested_value_on_non_mapping (x : value) (path : string) (dflt : value) :
  is_dict x = false →
  extract_nested_value x path dflt =
    match x with
    | VStr s =>
        if is_substring (first_segment path) s then Raise TypeError
        else Ok dflt
    | VList l =>
        if existsb (eq_str (first_segment path)) l then Raise TypeError
        else Ok dflt
    | _ => Raise TypeError
    end.
Proof.
  intros Hx. unfold extract_nested_value, first_segment.
  pose proof (split_on_nonempty "." path) as Hne.
  destruct (split_on "." path) as [|key keys]; [done|].
  by destruct x as [| | | | s | l |].
Qed.

Lemma extract_nested_value_on_non_mapping_witness :
  extract_nested_value (VStr "unknown date") "date.year" np_nan
  = Raise TypeError
  ∧ extract_nested_value (VStr "unknown") "date.year" np_nan = Ok np_nan.
Proof.
  split.
  - apply (extract_nested_value_on_non_mapping (VStr "unknown date")).
    reflexivity.
  - apply (extract_nested_value_on_non_mapping (VStr "unknown")).
    reflexivity.
Defined.

(** X3. Paths compose: when the path p1 leads through mappings to the
    value x, resolving "p1.p2" on the record is resolving p2 on x, with
    the same result, default or exception. *)
Theorem extract_nested_value_compose (r x : value) (p1 p2 : string) (dflt : value) :
  resolves r (split_on "." p1) x →
  extract_nested_value r (p1 ++ "." ++ p2) dflt
  = extract_nested_value x p2 dflt.
Proof.
  intros Hres. unfold extract_nested_value.
  change (p1 ++ "." ++ p2)%string with (p1 ++ String "." p2)%string.
  rewrite split_on_app. by apply walk_app_resolves.
Qed.

Lemma extract_nested_value_compose_witness :
  extract_nested_value marie_curie ("birth.place" ++ "." ++ "city.en") np_nan
  = extract_nested_value
      (VDict [("city", VDict [("en", VStr "Warsaw")])]) "city.en" np_nan.
Proof.
  apply (extract_nested_value_compose marie_curie
           (VDict [("city", VDict [("en", VStr "Warsaw")])])
           "birth.place" "city.en").
  repeat (eapply resolves_step; [reflexivity|]). apply resolves_end.
Defined.

(** X4. The segments [path.split('.')] gives: one more than the path has
    dots, none of them containing a dot, and joined with dots they give
    the path back. *)
Theorem split_on_dot_segments (path : string) :
  length (split_on "." path) = S (count_char "." path) ∧
  Forall (λ segment, count_char "." segment = 0) (split_on "." path) ∧
  String.concat "." (split_on "." path) = path.
Proof.
  split; [apply split_on_length|].
  split; [apply split_on_pieces | apply split_on_concat].
Qed.

(** X5. A path without a dot is one key: on a mapping the resolver then
    behaves as [data.get(path, default)], the empty path looking up the
    empty key. *)
Theorem extract_nested_value_single_key (d : pydict) (path : string) (dflt : value) :
  count_char "." path = 0 →
  extract_nested_value (VDict d) path dflt
  = Ok (default dflt (dict_get path d)).
Proof.
  intros Hdot. unfold extract_nested_value.
  rewrite (split_on_no_sep _ _ Hdot).
  destruct (dict_get path d) as [v|] eqn:Hget.
  - by rewrite (walk_dict_present _ _ _ _ _ Hget).
  - by rewrite (walk_dict_absent _ _ _ _ Hget).
Qed.

Lemma extract_nested_value_single_key_witness :
  extract_nested_value (VDict [("id", VStr "a"); ("portion", VStr "1/2")])
    "portion" np_nan = Ok (VStr "1/2")
  ∧ extract_nested_value (VDict [("id", VStr "a")]) "" np_nan = Ok np_nan.
Proof.
  split.
  - apply (extract_nested_value_single_key
             [("id", VStr "a"); ("portion", VStr "1/2")] "portion").
    reflexivity.
  - apply (extract_nested_value_single_key [("id", VStr "a")] "").
    reflexivity.
Defined.

(** X6. The resolver against the chain of [.get] calls of the
    exploration cell. Wherever the chain returns, the resolver returns
    too: the same value when the last key is present, and the default
    where the chain gives [None] for an absent last key. Where the first
    key is absent the chain raises AttributeError and the resolver
    returns the default. *)
Theorem extract_nested_value_covers_get_chain (d : pydict) (dflt : value) :
  (∀ v, Notebook.birth_date_chain (VDict d) = Ok v →
        ∃ birth, dict_get "birth" d = Some (VDict birth) ∧
                 v = default VNone (dict_get "date" birth) ∧
                 extract_nested_value (VDict d) "birth.date" dflt
                 = Ok (default dflt (dict_get "date" birth))) ∧
  (dict_get "birth" d = None →
   Notebook.birth_date_chain (VDict d) = Raise AttributeError ∧
   extract_nested_value (VDict d) "birth.date" dflt = Ok dflt).
Proof.
  unfold Notebook.birth_date_chain, extract_nested_value. split.
  - intros v H. cbn in H.
    destruct (dict_get "birth" d) as [birth|] eqn:Hbirth; cbn in H;
      [|discriminate H].
    destruct birth as [| | | | | |b]; try discriminate H.
    injection H as <-. exists b. split; [done|]. split; [done|].
    change (split_on "." "birth.date") with ["birth"; "date"].
    rewrite (walk_dict_present _ _ _ _ _ Hbirth).
    destruct (dict_get "date" b) as [w|] eqn:Hdate.
    + by rewrite (walk_dict_present _ _ _ _ _ Hdate).
    + by rewrite (walk_dict_absent _ _ _ _ Hdate).
  - intros Hbirth. cbn [py_get mbind result_bind]. rewrite Hbirth. split; [done|].
    change (split_on "." "birth.date") with ["birth"; "date"].
    by rewrite (walk_dict_absent _ _ _ _ Hbirth).
Qed.

Lemma extract_nested_value_covers_get_chain_witness :
  (∃ birth,
     dict_get "birth" [("birth", VDict [("date", VStr "1867-11-07")])]
     = Some (VDict birth) ∧
     VStr "1867-11-07" = default VNone (dict_get "date" birth) ∧
     extract_nested_value
       (VDict [("birth", VDict [("date", VStr "1867-11-07")])])
       "birth.date" np_nan
     = Ok (default np_nan (dict_get "date" birth)))
  ∧ Notebook.birth_date_chain (VDict [("id", VStr "2")])
    = Raise AttributeError
  ∧ extract_nested_value (VDict [("id", VStr "2")]) "birth.date" np_nan
    = Ok np_nan.
Proof.
  split.
  - apply (proj1 (extract_nested_value_covers_get_chain
                    [("birth", VDict [("date", VStr "1867-11-07")])] np_nan)
                 (VStr "1867-11-07")).
    reflexivity.
  - apply (proj2 (extract_nested_value_covers_get_chain
                    [("id", VStr "2")] np_nan)).
    reflexivity.
Defined.

End ResolverMore.

(** ** The normalizer, further *)

Section NormalizerMore.
Import Py.

Lemma for_each_appends {A} (body : A → list pydict → result (list pydict)) :
  appends body → appends (λ items rows, for_each items body rows).
Proof.
  intros Hbody items.
  induction items as [|x items IH].
  - left. exists []. intros rows'. by rewrite app_nil_r.
  - destruct (Hbody x) as [[new Hx] | [e Hx]].
    + destruct IH as [[news Hitems] | [e Hitems]].
      * left. exists (new ++ news). intros rows'. cbn. rewrite Hx. cbn.
        by rewrite Hitems, app_assoc.
      * right. exists e. intros rows'. cbn. rewrite Hx. cbn. apply Hitems.
    + right. exists e. intros rows'. cbn. by rewrite Hx.
Qed.

Lemma laureate_body_appends : appends laureate_body.
Proof.
  intros x. unfold laureate_body.
  destruct (laureate_row x) as [row|e]; [left | right]; by eexists.
Qed.

Lemma prize_laureate_body_appends row : appends (prize_laureate_body row).
Proof.
  intros x. unfold prize_laureate_body.
  destruct (laureate_fields x) as [fields|e]; [left | right]; by eexists.
Qed.

Lemma prize_body_appends : appends prize_body.
Proof.
  intros x. unfold prize_body.
  destruct (prize_row x) as [row|e]; [|right; by eexists].
  destruct (py_contains x "laureates") as [[|]|e]; cbn.
  - destruct (py_get x "laureates") as [ls|e]; cbn; [|right; by eexists].
    destruct (py_iter ls) as [items|e]; cbn; [|right; by eexists].
    apply (for_each_appends _ (prize_laureate_body_appends row) items).
  - left. by eexists.
  - right. by eexists.
Qed.

Lemma for_each_app {A} (body : A → list pydict → result (list pydict))
    (a b : list A) rows :
  for_each (a ++ b) body rows = (for_each a body rows ≫= for_each b body).
Proof.
  revert rows. induction a as [|x a IH]; intros rows; [done|].
  cbn. destruct (body x rows) as [rows'|e]; [apply IH | done].
Qed.

Lemma for_each_batches {A} (body : A → list pydict → result (list pydict))
    (a b : list A) ra rb :
  appends body →
  for_each a body [] = Ok ra →
  for_each b body [] = Ok rb →
  for_each (a ++ b) body [] = Ok (ra ++ rb).
Proof.
  intros Hbody Ha Hb. rewrite for_each_app, Ha. cbn.
  destruct (for_each_appends body Hbody b) as [[new Hnew] | [e He]].
  - rewrite Hnew in Hb. injection Hb as <-. apply Hnew.
  - rewrite He in Hb. discriminate Hb.
Qed.

Lemma normalize_rows_singleton key items :
  key = "laureates" ∨ key = "nobelPrizes" →
  normalize_rows (VDict [(key, VList items)])
  = for_each items (if String.eqb key "laureates"
                    then laureate_body else prize_body) [].
Proof. by intros [-> | ->]. Qed.

Lemma for_each_laureate_body_returns recs rows :
  Forall (λ x, returns (laureate_row x)) recs →
  returns (for_each recs laureate_body rows).
Proof.
  intros H. revert rows. induction H as [|x recs [row Hrow] _ IH]; intros rows.
  - by eexists.
  - change (for_each (x :: recs) laureate_body rows)
      with (laureate_body x rows ≫= for_each recs laureate_body).
    unfold laureate_body. rewrite Hrow. cbn. apply IH.
Qed.

(** X7. What normalize does with a top-level input that is not a
    mapping. [None] (what a failed fetch hands over), a number or a
    boolean raises AttributeError. A string or a list that holds
    'laureates' or 'nobelPrizes' raises AttributeError; any other string
    or list gives the empty frame without an error. *)
Theorem normalize_to_dataframe_on_non_mapping (json_data : value) :
  is_dict json_data = false →
  normalize_to_dataframe json_data =
    match json_data with
    | VStr s =>
        if is_substring "laureates" s || is_substring "nobelPrizes" s
        then Raise AttributeError
        else Ok {| columns := []; data := [] |}
    | VList l =>
        if existsb (eq_str "laureates") l || existsb (eq_str "nobelPrizes") l
        then Raise AttributeError
        else Ok {| columns := []; data := [] |}
    | _ => Raise AttributeError
    end.
Proof.
  intros Hjson. unfold normalize_to_dataframe, normalize_rows.
  destruct json_data as [| | | | s | l |]; try done; cbn.
  - destruct (is_substring "laureates" s); [done|].
    by destruct (is_substring "nobelPrizes" s).
  - destruct (existsb (eq_str "laureates") l); [done|].
    by destruct (existsb (eq_str "nobelPrizes") l).
Qed.

Lemma normalize_to_dataframe_on_non_mapping_witness :
  normalize_to_dataframe VNone = Raise AttributeError
  ∧ normalize_to_dataframe (VStr "not found")
    = Ok {| columns := []; data := [] |}
  ∧ normalize_to_dataframe (VList [VStr "laureates"]) = Raise AttributeError.
Proof.
  split; [|split].
  - apply (normalize_to_dataframe_on_non_mapping VNone). reflexivity.
  - apply (normalize_to_dataframe_on_non_mapping (VStr "not found")).
    reflexivity.
  - apply (normalize_to_dataframe_on_non_mapping (VList [VStr "laureates"])).
    reflexivity.
Defined.

(** X8. One bad record loses the whole table: when the records before it
    give their rows and the row of a record raises, normalize ends with
    that exception, whatever follows the record. *)
Theorem normalize_first_failure (d : pydict) (pre post : list value)
    (r : value) (e : exn) :
  dict_get "laureates" d = Some (VList (pre ++ r :: post)) →
  Forall (λ x, returns (laureate_row x)) pre →
  laureate_row r = Raise e →
  normalize_to_dataframe (VDict d) = Raise e.
Proof.
  intros Hl Hpre Hr. unfold normalize_to_dataframe.
  rewrite (normalize_rows_laureates d _ Hl). cbn [py_iter mbind result_bind].
  rewrite for_each_app.
  destruct (for_each_laureate_body_returns pre [] Hpre) as [rows ->].
  cbn [mbind result_bind for_each]. unfold laureate_body. by rewrite Hr.
Qed.

Lemma normalize_first_failure_witness :
  normalize_to_dataframe
    (VDict [("laureates",
             VList [marie_curie; VDict [("birth", VInt 1867)]; VDict []])])
  = Raise TypeError.
Proof.
  apply (normalize_first_failure
           [("laureates",
             VList [marie_curie; VDict [("birth", VInt 1867)]; VDict []])]
           [marie_curie] [VDict []] (VDict [("birth", VInt 1867)])).
  - reflexivity.
  - repeat constructor. by eexists.
  - reflexivity.
Defined.

(** X9. Batches: when two collections of the same kind each give their
    rows, the collection holding the records of the first followed by
    those of the second gives the rows of the first followed by the rows
    of the second. *)
Theorem normalize_rows_batches (key : string) (a b : list value)
    (ra rb : list pydict) :
  key = "laureates" ∨ key = "nobelPrizes" →
  normalize_rows (VDict [(key, VList a)]) = Ok ra →
  normalize_rows (VDict [(key, VList b)]) = Ok rb →
  normalize_rows (VDict [(key, VList (a ++ b))]) = Ok (ra ++ rb) ∧
  normalize_to_dataframe (VDict [(key, VList (a ++ b))])
  = Ok (pd_DataFrame (ra ++ rb)).
Proof.
  intros Hkey Ha Hb.
  assert (H : normalize_rows (VDict [(key, VList (a ++ b))]) = Ok (ra ++ rb)).
  { rewrite normalize_rows_singleton in Ha, Hb |- *; try done.
    apply for_each_batches; [|done..].
    destruct Hkey as [-> | ->]; cbn;
      [apply laureate_body_appends | apply prize_body_appends]. }
  split; [done|]. unfold normalize_to_dataframe. by rewrite H.
Qed.

Lemma normalize_rows_batches_witness :
  ∃ ra rb,
    normalize_rows (VDict [("nobelPrizes", VList [prize_1903])]) = Ok ra ∧
    normalize_rows (VDict [("nobelPrizes", VList [prize_1916])]) = Ok rb ∧
    normalize_rows (VDict [("nobelPrizes", VList ([prize_1903] ++ [prize_1916]))])
    = Ok (ra ++ rb).
Proof.
  eexists _, _. split; [reflexivity|]. split; [reflexivity|].
  apply (normalize_rows_batches "nobelPrizes" [prize_1903] [prize_1916]);
    [by right | reflexivity | reflexivity].
Defined.

(** X10. Only the entries under 'laureates' and 'nobelPrizes' count: two
    payloads that agree on both give the same result, whatever else they
    hold ('meta', 'links', ...) and in whatever order. *)
Theorem normalize_ignores_other_keys (d d' : pydict) :
  dict_get "laureates" d = dict_get "laureates" d' →
  dict_get "nobelPrizes" d = dict_get "nobelPrizes" d' →
  normalize_to_dataframe (VDict d) = normalize_to_dataframe (VDict d').
Proof.
  intros Hl Hp. unfold normalize_to_dataframe, normalize_rows. cbn.
  by rewrite Hl, Hp.
Qed.

Lemma normalize_ignores_other_keys_witness :
  normalize_to_dataframe
    (VDict [("nobelPrizes", VList [prize_1903]);
            ("meta", VDict [("count", VInt 676)]);
            ("links", VDict [])])
  = normalize_to_dataframe
      (VDict [("meta", VNone); ("nobelPrizes", VList [prize_1903])]).
Proof.
  apply (normalize_ignores_other_keys
           [("nobelPrizes", VList [prize_1903]);
            ("meta", VDict [("count", VInt 676)]);
            ("links", VDict [])]
           [("meta", VNone); ("nobelPrizes", VList [prize_1903])]);
    reflexivity.
Defined.

Lemma prize_rows_length nobel_prize block :
  prize_rows nobel_prize block → length block = prize_count nobel_prize.
Proof.
  intros (d & base & -> & _ & _ & H). cbn.
  destruct (dict_get "laureates" d) as [ls|].
  - destruct H as (entries & -> & Hrows). symmetry.
    by eapply Forall2_length.
  - by destruct H as [-> _].
Qed.

(** X11. The number of rows of the prize table: for well-formed prize
    records it is the sum, over the prizes, of the length of the embedded
    laureate list, a prize without the 'laureates' key counting 1. *)
Theorem normalize_prize_row_count (d : pydict) (prizes : list value) :
  dict_get "laureates" d = None →
  dict_get "nobelPrizes" d = Some (VList prizes) →
  forallb prize_wf prizes = true →
  ∃ df, normalize_to_dataframe (VDict d) = Ok df ∧
        length (data df) = sum_list (map prize_count prizes).
Proof.
  intros Hl Hp Hwf. unfold normalize_to_dataframe.
  rewrite (normalize_rows_prizes d _ Hl Hp). cbn [py_iter mbind result_bind].
  destruct (for_each_prize_body_wf prizes [] Hwf) as (blocks & -> & Hblocks).
  eexists. split; [done|]. cbn. rewrite length_map.
  clear -Hblocks. induction Hblocks as [|p block prizes blocks Hp _ IH];
    [done|].
  cbn. by rewrite length_app, IH, (prize_rows_length _ _ Hp).
Qed.

Lemma normalize_prize_row_count_witness :
  ∃ df, normalize_to_dataframe
          (VDict [("nobelPrizes", VList [prize_1903; prize_1916])]) = Ok df ∧
        length (data df) = 3.
Proof.
  apply (normalize_prize_row_count
           [("nobelPrizes", VList [prize_1903; prize_1916])]
           [prize_1903; prize_1916]); reflexivity.
Defined.

Lemma add_column_NoDup cols k : NoDup cols → NoDup (add_column cols k).
Proof.
  intros Hnd. unfold add_column. case_bool_decide; [done|].
  apply NoDup_app. split; [done|]. split; [|apply NoDup_singleton].
  intros x Hx ->%list_elem_of_singleton. done.
Qed.

Lemma union_keys_NoDup (rows : list pydict) : NoDup (union_keys rows).
Proof.
  unfold union_keys.
  assert (H : ∀ cols, NoDup cols → NoDup (fold_left add_columns rows cols)).
  { induction rows as [|row rows IH]; intros cols Hnd; [done|].
    cbn. apply IH. unfold add_columns. revert cols Hnd.
    induction (dict_keys row) as [|k ks IHk]; intros cols Hnd; [done|].
    cbn. by apply IHk, add_column_NoDup. }
  apply H. constructor.
Qed.

(** X12. The frame normalize returns is rectangular: no column name
    occurs twice, every row has one cell per column, and there is one row
    per row dict the loops appended. *)
Theorem normalize_frame_shape (json_data : value) (df : DataFrame value) :
  normalize_to_dataframe json_data = Ok df →
  NoDup (columns df) ∧
  Forall (λ cells, length cells = length (columns df)) (data df) ∧
  ∃ rows, normalize_rows json_data = Ok rows ∧ length (data df) = length rows.
Proof.
  unfold normalize_to_dataframe. intros H.
  inv_bind H as rows Hrows. injection H as <-.
  split; [apply union_keys_NoDup|]. split.
  - cbn. apply Forall_map, Forall_true. intros row. by rewrite length_map.
  - exists rows. split; [done|]. cbn. by rewrite length_map.
Qed.

Lemma normalize_frame_shape_witness :
  ∃ df, normalize_to_dataframe
          (VDict [("nobelPrizes", VList [prize_1916; prize_1903])]) = Ok df ∧
        NoDup (columns df) ∧
        Forall (λ cells, length cells = length (columns df)) (data df).
Proof.
  eexists. split; [reflexivity|].
  destruct (normalize_frame_shape
              (VDict [("nobelPrizes", VList [prize_1916; prize_1903])])
              _ eq_refl) as (Hnd & Hcells & _).
  by split.
Defined.

(** X13. Flattening a laureate record whose fields stay inside mappings:
    the row holds, under each column, the value its path leads to, NaN
    where the path ends at an absent key, and [None] for an absent
    'id'. *)
Theorem laureate_row_flat (d : pydict) :
  laureate_wf (VDict d) = true →
  laureate_row (VDict d) = Ok (flat_laureate d).
Proof.
  unfold laureate_wf. intros Hwf.
  apply andb_true_iff in Hwf as [_ Hpaths].
  rewrite forallb_forall in Hpaths.
  assert (Hex : ∀ path, In path laureate_paths →
            extract_nested_value (VDict d) path np_nan
            = Ok (default np_nan (lookup_path (split_on "." path) (VDict d)))).
  { intros path Hin. apply walk_lookup_path. by apply Hpaths. }
  unfold laureate_row. rewrite get_or_nan_dict.
  rewrite !Hex by (cbn; tauto). reflexivity.
Qed.

Lemma laureate_row_flat_witness :
  laureate_row marie_curie =
    Ok (flat_laureate
          [("id", VStr "1");
           ("knownName", VDict [("en", VStr "Marie Curie")]);
           ("birth", VDict [("date", VStr "1867-11-07");
                            ("place", VDict [("city", VDict [("en", VStr "Warsaw")])])])]).
Proof.
  apply (laureate_row_flat
           [("id", VStr "1");
            ("knownName", VDict [("en", VStr "Marie Curie")]);
            ("birth", VDict [("date", VStr "1867-11-07");
                             ("place", VDict [("city", VDict [("en", VStr "Warsaw")])])])]).
  reflexivity.
Defined.

(** X14. A 'laureates' entry that is not a list. [None], a number or a
    boolean raises TypeError (not iterable); an empty dict or string
    gives the empty frame; a dict or string that is not empty raises
    AttributeError, its keys or characters being taken for records. *)
Theorem normalize_collection_not_a_list (d : pydict) (ls : value) :
  dict_get "laureates" d = Some ls →
  is_list ls = false →
  normalize_to_dataframe (VDict d) =
    match ls with
    | VDict [] | VStr EmptyString => Ok {| columns := []; data := [] |}
    | VDict _ | VStr _ => Raise AttributeError
    | _ => Raise TypeError
    end.
Proof.
  intros Hl Hls. unfold normalize_to_dataframe.
  rewrite (normalize_rows_laureates d _ Hl).
  destruct ls as [| | | | s | | vd]; try done.
  - by destruct s.
  - by destruct vd as [|[k v] vd].
Qed.

Lemma normalize_collection_not_a_list_witness :
  normalize_to_dataframe (VDict [("laureates", VNone)]) = Raise TypeError
  ∧ normalize_to_dataframe
      (VDict [("laureates", VDict [("id", VStr "1")])])
    = Raise AttributeError.
Proof.
  split.
  - apply (normalize_collection_not_a_list [("laureates", VNone)] VNone);
      reflexivity.
  - apply (normalize_collection_not_a_list
             [("laureates", VDict [("id", VStr "1")])]
             (VDict [("id", VStr "1")])); reflexivity.
Defined.

End NormalizerMore.

(** ** The data quality cell *)

Section QualityCheck.
Import Py.

Lemma fill_zip (row : pydict) cols c :
  c ∈ cols → cell (zip cols (map (cell row) cols)) c = cell row c.
Proof.
  induction cols as [|k cols IH]; intros Hc; [by apply elem_of_nil in Hc|].
  cbn [map zip zip_with]. unfold fill at 1. cbn [dict_get].
  destruct (String.eqb_spec c k) as [->|Hne]; [done|].
  apply elem_of_cons in Hc as [?|Hc]; [done|]. by apply IH.
Qed.

Lemma loc_mask_map {A B} (g : A → B) (f : A → bool) rows :
  Notebook.loc_mask (map g rows) (map f rows) = map g (List.filter f rows).
Proof.
  induction rows as [|row rows IH]; [done|].
  cbn. destruct (f row); cbn; by rewrite IH.
Qed.

Lemma no_embedded_rows nobel_prize block :
  no_embedded nobel_prize = true →
  prize_rows nobel_prize block →
  Forall (λ row, dict_keys row = prize_columns) block.
Proof.
  intros Hno (d & base & -> & _ & Hkeys & H). cbn in Hno.
  destruct (dict_get "laureates" d) as [ls|].
  - destruct H as (entries & -> & Hrows).
    destruct entries; [|discriminate Hno]. inversion Hrows. constructor.
  - destruct H as [-> _]. by repeat constructor.
Qed.

(** X15. On a collection of well-formed prize records none of which
    names a laureate (no 'laureates' key, or an empty list), the table has
    no 'laureate_id' column and the data quality cell raises KeyError
    instead of listing the prizes. *)
Theorem quality_check_without_laureates (d : pydict) (prizes : list value) :
  dict_get "laureates" d = None →
  dict_get "nobelPrizes" d = Some (VList prizes) →
  forallb prize_wf prizes = true →
  forallb no_embedded prizes = true →
  ∃ df, normalize_to_dataframe (VDict d) = Ok df ∧
        Notebook.quality_check df = Raise KeyError.
Proof.
  intros Hl Hp Hwf Hno. unfold normalize_to_dataframe.
  rewrite (normalize_rows_prizes d _ Hl Hp). cbn [py_iter mbind result_bind].
  destruct (for_each_prize_body_wf prizes [] Hwf) as (blocks & -> & Hblocks).
  eexists. split; [done|]. cbn [app].
  assert (Hkeys : Forall (λ row, dict_keys row = prize_columns) (concat blocks)).
  { clear -Hblocks Hno.
    induction Hblocks as [|p block prizes blocks Hblock _ IH]; [constructor|].
    cbn in Hno. apply andb_true_iff in Hno as [Hp Hps].
    cbn. apply Forall_app. split; [by eapply no_embedded_rows | by apply IH]. }
  unfold Notebook.quality_check, Notebook.df_getitem. cbn [columns frame_of_records].
  destruct (decide (concat blocks = [])) as [-> | Hne]; [done|].
  rewrite (union_keys_uniform _ _ prize_columns_NoDup Hne Hkeys).
  reflexivity.
Qed.

Lemma quality_check_without_laureates_witness :
  ∃ df, normalize_to_dataframe (VDict [("nobelPrizes", VList [prize_1916])])
        = Ok df ∧
        Notebook.quality_check df = Raise KeyError.
Proof.
  apply (quality_check_without_laureates
           [("nobelPrizes", VList [prize_1916])] [prize_1916]); reflexivity.
Defined.

(** X16. When the table has a 'laureate_id' column, the data quality
    cell returns, under the same columns, the first five of the rows of
    the table that come from a row dict without 'laureate_id' or with
    [None] or NaN under it, in table order. *)
Theorem quality_check_selects (json_data : value) (df : DataFrame value) :
  normalize_to_dataframe json_data = Ok df →
  "laureate_id" ∈ columns df →
  ∃ rows qdf,
    normalize_rows json_data = Ok rows ∧
    Notebook.quality_check df = Ok qdf ∧
    columns qdf = columns df ∧
    data qdf = take 5 (Notebook.loc_mask (data df) (map missing_id rows)) ∧
    length (data qdf) = min 5 (length (List.filter missing_id rows)).
Proof.
  unfold normalize_to_dataframe. intros H Hcol.
  inv_bind H as rows Hrows. injection H as <-.
  exists rows. eexists. split; [done|].
  assert (Hmask : map Notebook.isna
                    (map (λ row, cell row "laureate_id")
                         (records (pd_DataFrame rows)))
                  = map missing_id rows).
  { unfold records. cbn [columns data frame_of_records].
    rewrite !map_map. apply map_ext. intros row. unfold missing_id. f_equal.
    by apply fill_zip. }
  unfold Notebook.quality_check, Notebook.df_getitem.
  rewrite bool_decide_eq_true_2 by done.
  cbn [mbind result_bind]. rewrite Hmask.
  split; [done|]. split; [done|]. split; [done|].
  cbn [data frame_of_records]. unfold Notebook.head.
  by rewrite loc_mask_map, length_take, length_map, Nat.min_comm.
Qed.

Lemma quality_check_selects_witness :
  ∃ df rows qdf,
    normalize_to_dataframe
      (VDict [("nobelPrizes", VList [prize_1903; prize_1916])]) = Ok df ∧
    normalize_rows
      (VDict [("nobelPrizes", VList [prize_1903; prize_1916])]) = Ok rows ∧
    Notebook.quality_check df = Ok qdf ∧
    columns qdf = columns df ∧
    data qdf = take 5 (Notebook.loc_mask (data df) (map missing_id rows)) ∧
    length (data qdf) = 1.
Proof.
  eexists.
  destruct (quality_check_selects
              (VDict [("nobelPrizes", VList [prize_1903; prize_1916])])
              _ eq_refl) as (rows & qdf & Hrows & Hcheck & Hcols & Hdata & Hlen).
  - apply (bool_decide_unpack _). by vm_compute.
  - exists rows, qdf. split; [reflexivity|].
    injection Hrows as <-. by repeat split.
Defined.

End QualityCheck.

(** ** The store model on an example *)

Lemma curie_record_repr :
  Store.repr curie_store (Store.SRef 2%positive)
    (VDict [("id", VStr "1");
            ("knownName", VDict [("en", VStr "Marie Curie")])]).
Proof.
  eapply Store.repr_Dict; [reflexivity|].
  repeat constructor; cbn.
  eapply Store.repr_Dict; [reflexivity|].
  repeat constructor.
Qed.

Lemma normalize_to_dataframe_sim_witness :
  sim (λ σ' sdf df, curie_store ⊆ σ' ∧ frame_repr curie_store sdf df)
      curie_store
      (Store.normalize_to_dataframe (Store.SRef 4%positive))
      (Py.normalize_to_dataframe curie_tree).
Proof.
  apply (normalize_to_dataframe_sim curie_store (Store.SRef 4%positive)
           curie_tree).
  exact curie_store_repr.
Defined.

Lemma bind_run {A B} (m : Store.M A) (f : A → Store.M B) σ a σ' :
  m σ = (Store.Returned a, σ') → (m ≫= f) σ = f a σ'.
Proof. intros H. unfold mbind, Store.M_bind. by rewrite H. Qed.

Lemma bind_run_raise {A B} (m : Store.M A) (f : A → Store.M B) σ e σ' :
  m σ = (Store.Raised e, σ') → (m ≫= f) σ = (Store.Raised e, σ').
Proof. intros H. unfold mbind, Store.M_bind. by rewrite H. Qed.

Lemma py_in_run σ key x v :
  Store.repr σ x v →
  Store.py_in key x σ = (lift (Py.py_in key v), σ).
Proof.
  destruct 1 as [| | | | s | l items vs Hl Hitems | l d vd Hl Hd]; try done.
  - unfold Store.py_in. rewrite (deref_bind _ _ _ _ Hl). cbn.
    by rewrite (existsb_eq_str_repr σ key _ _ Hitems).
  - unfold Store.py_in. rewrite (deref_bind _ _ _ _ Hl). cbn.
    destruct (entries_repr_get σ d vd key Hd) as [c c' Hc|].
    + by rewrite !bool_decide_eq_true_2.
    + by rewrite !bool_decide_eq_false_2; [| intros [? ?]..].
Qed.

(** A subscript that returns gives the object the dict holds. *)
Lemma py_getitem_run σ key x v :
  Store.repr σ x v →
  match Py.py_getitem v key with
  | Ok c' =>
      ∃ l d c, x = Store.SRef l ∧ σ !! l = Some (Store.ODict d) ∧
               dict_get key d = Some c ∧
               Store.py_getitem x key σ = (Store.Returned c, σ) ∧
               Store.repr σ c c'
  | Raise e => Store.py_getitem x key σ = (Store.Raised e, σ)
  end.
Proof.
  destruct 1 as [| | | | s | l items vs Hl Hitems | l d vd Hl Hd]; try done.
  - cbn. unfold Store.py_getitem. by rewrite (deref_bind _ _ _ _ Hl).
  - cbn. unfold Store.py_getitem. rewrite (deref_bind _ _ _ _ Hl).
    pose proof (entries_repr_get σ d vd key Hd) as Hget.
    destruct (dict_get key vd) as [c'|]; inversion Hget as [c c'' Hc Hd' Hvd'|];
      subst; [|done].
    by exists l, d, c.
Qed.

Lemma walk_in_store σ keys dflt vdflt :
  Store.repr σ dflt vdflt →
  ∀ x v, Store.repr σ x v →
    match Py.walk keys v vdflt with
    | Ok w =>
        ∃ y, Store.walk keys x dflt σ = (Store.Returned y, σ) ∧
             Store.repr σ y w ∧ (leads_to σ x keys y ∨ y = dflt)
    | Raise e => Store.walk keys x dflt σ = (Store.Raised e, σ)
    end.
Proof.
  intros Hdflt. induction keys as [|key keys IH]; intros x v Hx.
  - exists x. split; [done|]. split; [done|]. left. constructor.
  - cbn [Py.walk Store.walk].
    pose proof (py_in_run σ key x v Hx) as Hin.
    destruct (Py.py_in key v) as [[|]|e]; cbn in Hin |- *.
    + rewrite (bind_run _ _ _ _ _ Hin).
      pose proof (py_getitem_run σ key x v Hx) as Hitem.
      destruct (Py.py_getitem v key) as [c'|e]; cbn.
      * destruct Hitem as (l & d & c & -> & Hl & Hget & Hrun & Hc).
        rewrite (bind_run _ _ _ _ _ Hrun).
        specialize (IH c c' Hc).
        destruct (Py.walk keys c' vdflt) as [w|e]; [|done].
        destruct IH as (y & Hwalk & Hy & [Hwhere | ->]).
        -- exists y. split; [done|]. split; [done|]. left.
           by eapply leads_step.
        -- exists dflt. split; [done|]. split; [done|]. by right.
      * by rewrite (bind_run_raise _ _ _ _ _ Hitem).
    + rewrite (bind_run _ _ _ _ _ Hin).
      exists dflt. split; [done|]. split; [done|]. by right.
    + by rewrite (bind_run_raise _ _ _ _ _ Hin).
Qed.

(** X18. In the store the resolver leaves every object as it found it,
    whether it returns or raises, and ends as it does on the tree. What
    it returns is an object of the input itself, the one held under the
    last segment of the path, or the default it was given: no copy is
    made. *)
Theorem extract_nested_value_in_store (σ : Store.store) (path : string)
    (x dflt : Store.sval) (v vdflt : value) :
  Store.repr σ x v → Store.repr σ dflt vdflt →
  (Store.extract_nested_value x path dflt σ).2 = σ ∧
  match Py.extract_nested_value v path vdflt with
  | Ok w =>
      ∃ y, (Store.extract_nested_value x path dflt σ).1 = Store.Returned y ∧
           Store.repr σ y w ∧
           (leads_to σ x (split_on "." path) y ∨ y = dflt)
  | Raise e => (Store.extract_nested_value x path dflt σ).1 = Store.Raised e
  end.
Proof.
  intros Hx Hdflt. split; [apply read_only_extract_nested_value|].
  unfold Py.extract_nested_value, Store.extract_nested_value.
  pose proof (walk_in_store σ (split_on "." path) dflt vdflt Hdflt x v Hx) as H.
  destruct (Py.walk (split_on "." path) v vdflt) as [w|e].
  - destruct H as (y & -> & Hy & Hwhere). by exists y.
  - by rewrite H.
Qed.

Lemma extract_nested_value_in_store_witness :
  (Store.extract_nested_value (Store.SRef 2%positive) "knownName.en"
     Store.np_nan curie_store).2 = curie_store ∧
  ∃ y, (Store.extract_nested_value (Store.SRef 2%positive) "knownName.en"
          Store.np_nan curie_store).1 = Store.Returned y ∧
       Store.repr curie_store y (VStr "Marie Curie") ∧
       (leads_to curie_store (Store.SRef 2%positive)
          (split_on "." "knownName.en") y ∨ y = Store.np_nan).
Proof.
  exact (extract_nested_value_in_store curie_store "knownName.en"
           (Store.SRef 2%positive) Store.np_nan _ np_nan
           curie_record_repr (Store.repr_Float _ NaN)).
Defined.
